(** * timetracker-cli: the session ledger and the weekly report of [tracker.py]

    A shallow embedding of [src/tracker.py].  Python dictionaries are
    association lists in insertion order, floats are idealised as exact
    rationals, the file system and the standard output are threaded through
    a small state-and-exception monad, and every clock reading is an explicit
    argument of the function that takes it. *)

From Stdlib Require Import List String Ascii Bool ZArith QArith Lia Lqa
  DecimalString
  Permutation Sorted.
Import ListNotations.

Local Open Scope string_scope.
Local Open Scope Z_scope.

(** ** Python dictionaries

    A [dict] keeps its items in insertion order; assigning to a key that is
    present replaces the value in place, assigning to a new key appends. *)
Module Dict.
Abbreviation t V := (list (string * V)) (only parsing).

Section Ops.
Context {V : Type}.
Abbreviation t := (list (string * V)) (only parsing).

Definition keys (d : t) : list string := map fst d.

Definition items (d : t) : list (string * V) := d.

Definition values (d : t) : list V := map snd d.

(** [d.get(k)], [None] when [k] is absent *)
Fixpoint get (k : string) (d : t) : option V :=
  match d with
  | [] => None
  | (k', v) :: r => if String.eqb k' k then Some v else get k r
  end.

(** [d.get(k, dflt)] *)
Definition get_default (k : string) (dflt : V) (d : t) : V :=
  match get k d with
  | Some v => v
  | None => dflt
  end.

(** [k in d] *)
Definition mem (k : string) (d : t) : bool :=
  match get k d with
  | Some _ => true
  | None => false
  end.

(** [d[k] = v] *)
Fixpoint set (k : string) (v : V) (d : t) : t :=
  match d with
  | [] => [(k, v)]
  | (k', v') :: r =>
      if String.eqb k' k then (k', v) :: r else (k', v') :: set k v r
  end.

(** the dictionary left by [d.pop(k)] *)
Fixpoint remove (k : string) (d : t) : t :=
  match d with
  | [] => []
  | (k', v') :: r =>
      if String.eqb k' k then r else (k', v') :: remove k r
  end.

(** keys are unique, as in every Python dictionary *)
Definition wf (d : t) : Prop := NoDup (keys d).
End Ops.
End Dict.

(** ** The ledger

    [json.load] yields a dictionary whose ["active"] item is a session
    [{"category": c, "start": s}] and whose other items map a date string to
    a dictionary from category to accumulated seconds. *)
Inductive value : Type :=
| Session (category : string) (start : Q)
| Day (data : Dict.t Q).

Definition db : Type := Dict.t value.

(** The layout [start_timer] and [stop_timer] write: sessions sit under
    ["active"] and nowhere else, and no key is repeated at either level. *)
Definition entry_ok (kv : string * value) : Prop :=
  match snd kv with
  | Session _ _ => fst kv = "active"
  | Day data => fst kv <> "active" /\ Dict.wf data
  end.

Definition layout_ok (d : db) : Prop :=
  Dict.wf d /\ Forall entry_ok d.

(** ** Files, output and exceptions *)

Definition DB_PATH : string := "grind_tracker.json".
Definition REPORT_PATH : string := "grind_report.png".
Definition SUMMARY_PATH : string := "grind_summary.md".
Definition README_PATH : string := "README.md".

(** What a file holds.  [Json d] is a document that [json.load] reads back
    as [d]; [Truncated] is the empty file left by [open(path, 'w')] before
    anything is written; [Text s] is the markdown [f.write] leaves; [Image]
    is what [plt.savefig] leaves, the title, the labels and the wedge sizes
    of the pie; [Raw] is any other text. *)
Inductive content : Type :=
| Truncated
| Json (d : db)
| Text (s : string)
| Image (title : string) (labels : list string) (sizes : list Q)
| Raw (s : string).

Definition fs : Type := string -> option content.

Definition fs_write (path : string) (c : content) (f : fs) : fs :=
  fun p => if String.eqb p path then Some c else f p.

Inductive exn : Type :=
| JSONDecodeError
| OverflowError
| KeyError (k : string)
| TypeError.

Record world : Type := World {
  files : fs;
  stdout : list string;
  commands : list (list string)
}.

Inductive outcome (A : Type) : Type :=
| Return (a : A)
| Raise (e : exn).
Arguments Return {A} a.
Arguments Raise {A} e.

Definition M (A : Type) : Type := world -> outcome A * world.

Definition ret {A} (a : A) : M A := fun w => (Return a, w).

Definition raise {A} (e : exn) : M A := fun w => (Raise e, w).

Definition bind {A B} (m : M A) (k : A -> M B) : M B :=
  fun w =>
    match m w with
    | (Return a, w') => k a w'
    | (Raise e, w') => (Raise e, w')
    end.

Notation "x <- m ;; k" := (bind m (fun x => k))
  (at level 61, m at next level, right associativity).
Notation "m ;; k" := (bind m (fun _ => k))
  (at level 61, right associativity).

(** [print(line)] *)
Definition print (line : string) : M unit :=
  fun w => (Return tt, World (files w) (stdout w ++ [line]) (commands w)).

(** [os.path.exists(path)] *)
Definition path_exists (path : string) : M bool :=
  fun w => (Return (match files w path with Some _ => true | None => false end), w).

(** [open(path, 'w')]: the file is created or cut to length zero *)
Definition open_w (path : string) : M unit :=
  fun w => (Return tt, World (fs_write path Truncated (files w)) (stdout w) (commands w)).

(** writing the whole text through the open handle and closing it *)
Definition write_close (path : string) (c : content) : M unit :=
  fun w => (Return tt, World (fs_write path c (files w)) (stdout w) (commands w)).

(** [json.load(f)] on the file opened for reading; whatever is not a JSON
    document fails to decode *)
Definition json_load (path : string) : M db :=
  fun w =>
    match files w path with
    | Some (Json d) => (Return d, w)
    | _ => (Raise JSONDecodeError, w)
    end.

(** [load_db], lines 14-18 *)
Definition load_db : M db :=
  e <- path_exists DB_PATH ;;
  if negb e then ret [] else json_load DB_PATH.

(** [save_db], lines 20-22 *)
Definition save_db (data : db) : M unit :=
  open_w DB_PATH ;;
  write_close DB_PATH (Json data).

(** ** Numbers and their formatting

    Seconds and hours are Python floats; the model computes with exact
    rationals, so rounding is exact decimal rounding, ties to even. *)

Definition round_half_even (q : Q) : Z :=
  let n := Qnum q in
  let d := Zpos (Qden q) in
  let fl := n / d in
  let r2 := 2 * (n mod d) in
  if r2 <? d then fl
  else if d <? r2 then fl + 1
  else if Z.even fl then fl else fl + 1.

(** [round(x, 2)], a whole number of hundredths *)
Definition round2 (x : Q) : Q :=
  Qred (round_half_even (x * 100) # 100).

(** [v / 3600] *)
Definition hours_of (secs : Q) : Q := (secs / 3600)%Q.

Definition nl : string := String (ascii_of_nat 10) EmptyString.

Definition str_of_nat (n : N) : string :=
  DecimalString.NilZero.string_of_uint (N.to_uint n).

Definition two_digits (n : N) : string :=
  ((if n <? 10 then "0" else "") ++ str_of_nat n)%N%string.

(** [f"{x:.2f}"] *)
Definition fmt_2f (x : Q) : string :=
  let k := Z.abs_N (round_half_even (x * 100)) in
  (if Qle_bool 0 x then "" else "-")
    ++ str_of_nat (k / 100) ++ "." ++ two_digits (k mod 100).

(** [str(h)] for a float that is a whole number of hundredths, as
    [round(x, 2)] returns: the shortest decimal that reads back as [h], with
    at least one digit after the point (magnitudes below 1e16). *)
Definition float_str (h : Q) : string :=
  let z := round_half_even (h * 100) in
  let k := Z.abs_N z in
  let frac := (k mod 100)%N in
  (if z <? 0 then "-" else "")
    ++ str_of_nat (k / 100) ++ "."
    ++ (if (frac mod 10 =? 0)%N then str_of_nat (frac / 10) else two_digits frac).

Fixpoint spaces (n : nat) : string :=
  match n with
  | O => ""
  | S n' => String " " (spaces n')
  end.

(** [f"{s:<w}"] and [f"{s:>w}"] *)
Definition ljust (w : nat) (s : string) : string :=
  s ++ spaces (w - String.length s).

Definition rjust (w : nat) (s : string) : string :=
  spaces (w - String.length s) ++ s.

(** ** Dates and times

    [datetime] values are naive: the seven fields of the Python object.  The
    calendar functions are those of CPython's [datetime] module. *)

Record datetime : Type := Datetime {
  year : Z; month : Z; day : Z;
  hour : Z; minute : Z; second : Z; microsecond : Z
}.

Definition MINYEAR : Z := 1.
Definition MAXYEAR : Z := 9999.
Definition MAXORDINAL : Z := 3652059.

Definition DAYS_IN_MONTH : list Z :=
  [-1; 31; 28; 31; 30; 31; 30; 31; 31; 30; 31; 30; 31].

Definition DAYS_BEFORE_MONTH : list Z :=
  [-1; 0; 31; 59; 90; 120; 151; 181; 212; 243; 273; 304; 334].

Definition is_leap (y : Z) : bool :=
  (y mod 4 =? 0) && (negb (y mod 100 =? 0) || (y mod 400 =? 0)).

Definition days_before_year (y : Z) : Z :=
  let y := y - 1 in
  y * 365 + y / 4 - y / 100 + y / 400.

Definition days_in_month (y m : Z) : Z :=
  if (m =? 2) && is_leap y then 29
  else nth (Z.to_nat m) DAYS_IN_MONTH (-1).

Definition days_before_month (y m : Z) : Z :=
  nth (Z.to_nat m) DAYS_BEFORE_MONTH (-1)
  + (if (2 <? m) && is_leap y then 1 else 0).

Definition ymd2ord (y m d : Z) : Z :=
  days_before_year y + days_before_month y m + d.

Definition DI400Y : Z := 146097.
Definition DI100Y : Z := 36524.
Definition DI4Y : Z := 1461.

(** the second half of [_ord2ymd]: month and day from the day [n] of the
    year, counted from zero; the month is estimated and corrected *)
Definition month_day (leapyear : bool) (n : Z) : Z * Z :=
  let m := Z.shiftr (n + 50) 5 in
  let preceding :=
    nth (Z.to_nat m) DAYS_BEFORE_MONTH (-1)
    + (if (2 <? m) && leapyear then 1 else 0) in
  let '(m, preceding) :=
    if n <? preceding
    then (m - 1,
          preceding - (nth (Z.to_nat (m - 1)) DAYS_IN_MONTH (-1)
                       + (if (m - 1 =? 2) && leapyear then 1 else 0)))
    else (m, preceding) in
  (m, n - preceding + 1).

Definition ord2ymd (n : Z) : Z * Z * Z :=
  let n := n - 1 in
  let n400 := n / DI400Y in
  let n := n mod DI400Y in
  let y := n400 * 400 + 1 in
  let n100 := n / DI100Y in
  let n := n mod DI100Y in
  let n4 := n / DI4Y in
  let n := n mod DI4Y in
  let n1 := n / 365 in
  let n := n mod 365 in
  let y := y + n100 * 100 + n4 * 4 + n1 in
  if (n1 =? 4) || (n100 =? 4) then (y - 1, 12, 31)
  else
    let leapyear := (n1 =? 3) && (negb (n4 =? 24) || (n100 =? 3)) in
    let '(m, d) := month_day leapyear n in
    (y, m, d).

(** [dt.toordinal()] *)
Definition toordinal (dt : datetime) : Z :=
  ymd2ord (year dt) (month dt) (day dt).

(** the fields [datetime(...)] accepts *)
Definition valid_date (y m d : Z) : bool :=
  (MINYEAR <=? y) && (y <=? MAXYEAR) && (1 <=? m) && (m <=? 12)
  && (1 <=? d) && (d <=? days_in_month y m).

Definition valid_datetime (dt : datetime) : bool :=
  valid_date (year dt) (month dt) (day dt)
  && (0 <=? hour dt) && (hour dt <? 24)
  && (0 <=? minute dt) && (minute dt <? 60)
  && (0 <=? second dt) && (second dt <? 60)
  && (0 <=? microsecond dt) && (microsecond dt <? 1000000).

(** [dt - timedelta(days=n)]: through the ordinal, [OverflowError] when the
    day leaves the calendar *)
Definition sub_days (dt : datetime) (n : Z) : option datetime :=
  let days := toordinal dt - n in
  let seconds := hour dt * 3600 + minute dt * 60 + second dt in
  let h := seconds / 3600 in
  let rem := seconds mod 3600 in
  if (0 <? days) && (days <=? MAXORDINAL)
  then
    let '(y, m, d) := ord2ymd days in
    Some (Datetime y m d h (rem / 60) (rem mod 60) (microsecond dt))
  else None.

(** comparison of naive datetimes: the field tuples, lexicographically *)
Fixpoint lex_le (a b : list Z) : bool :=
  match a, b with
  | x :: a', y :: b' => (x <? y) || ((x =? y) && lex_le a' b')
  | _, _ => true
  end.

Definition fields (dt : datetime) : list Z :=
  [year dt; month dt; day dt; hour dt; minute dt; second dt; microsecond dt].

Definition dt_le (a b : datetime) : bool := lex_le (fields a) (fields b).

Definition pad_left (w : nat) (s : string) : string :=
  String.concat "" (repeat "0" (w - String.length s)) ++ s.

(** [dt.strftime('%Y-%m-%d')], the year written with four digits *)
Definition strftime_Ymd (dt : datetime) : string :=
  pad_left 4 (str_of_nat (Z.to_N (year dt))) ++ "-"
  ++ pad_left 2 (str_of_nat (Z.to_N (month dt))) ++ "-"
  ++ pad_left 2 (str_of_nat (Z.to_N (day dt))).

(** [datetime.strptime(s, "%Y-%m-%d")].  The format compiles to the regular
    expression
    [(?P<Y>\d\d\d\d)-(?P<m>1[0-2]|0[1-9]|[1-9])-(?P<d>3[0-1]|[1-2]\d|0[1-9]|[1-9]| [1-9])],
    matched at the start of [s]; alternatives are tried in order, each
    followed by the rest of the pattern, which is the continuation [k].
    Characters are code points below 256, where [\d] is [0-9]. *)
Definition between (lo hi c : ascii) : bool :=
  (nat_of_ascii lo <=? nat_of_ascii c)%nat && (nat_of_ascii c <=? nat_of_ascii hi)%nat.

Definition is_digit (c : ascii) : bool := between "0" "9" c.

Definition digit (c : ascii) : Z := Z.of_nat (nat_of_ascii c) - 48.

Definition orelse {A} (a b : option A) : option A :=
  match a with
  | Some _ => a
  | None => b
  end.

Definition two_chars {A} (p1 p2 : ascii -> bool) (s : string)
    (k : Z -> string -> option A) : option A :=
  match s with
  | String c1 (String c2 r) =>
      if p1 c1 && p2 c2 then k (10 * digit c1 + digit c2) r else None
  | _ => None
  end.

Definition one_char {A} (p : ascii -> bool) (s : string)
    (k : Z -> string -> option A) : option A :=
  match s with
  | String c r => if p c then k (digit c) r else None
  | _ => None
  end.

Definition space_char {A} (p : ascii -> bool) (s : string)
    (k : Z -> string -> option A) : option A :=
  match s with
  | String " " (String c r) => if p c then k (digit c) r else None
  | _ => None
  end.

Definition re_m {A} (s : string) (k : Z -> string -> option A) : option A :=
  orelse (two_chars (Ascii.eqb "1") (between "0" "2") s k)
 (orelse (two_chars (Ascii.eqb "0") (between "1" "9") s k)
         (one_char (between "1" "9") s k)).

Definition re_d {A} (s : string) (k : Z -> string -> option A) : option A :=
  orelse (two_chars (Ascii.eqb "3") (between "0" "1") s k)
 (orelse (two_chars (between "1" "2") is_digit s k)
 (orelse (two_chars (Ascii.eqb "0") (between "1" "9") s k)
 (orelse (one_char (between "1" "9") s k)
         (space_char (between "1" "9") s k)))).

Definition re_Y {A} (s : string) (k : Z -> string -> option A) : option A :=
  match s with
  | String a (String b (String c (String d r))) =>
      if is_digit a && is_digit b && is_digit c && is_digit d
      then k (1000 * digit a + 100 * digit b + 10 * digit c + digit d) r
      else None
  | _ => None
  end.

Definition literal {A} (c : ascii) (s : string) (k : string -> option A) : option A :=
  match s with
  | String c' r => if Ascii.eqb c' c then k r else None
  | _ => None
  end.

(** the match of the regular expression: year, month, day and what is left *)
Definition match_Ymd (s : string) : option (Z * Z * Z * string) :=
  re_Y s (fun y s1 =>
  literal "-" s1 (fun s2 =>
  re_m s2 (fun m s3 =>
  literal "-" s3 (fun s4 =>
  re_d s4 (fun d s5 => Some (y, m, d, s5)))))).

(** [None] stands for the [ValueError] of a string that does not match, has
    unconverted data left, or names a day that does not exist. *)
Definition strptime_Ymd (s : string) : option datetime :=
  match match_Ymd s with
  | Some (y, m, d, EmptyString) =>
      if valid_date y m d then Some (Datetime y m d 0 0 0 0) else None
  | _ => None
  end.

(** ** The commands *)

(** The exit of one [subprocess.run(cmd, check=True)]: [None] for status
    zero, [Some e] for a [CalledProcessError] that prints as [e]. *)
Definition shell : Type := list string -> option string.

Definition run (sh : shell) (cmd : list string) : M (option string) :=
  fun w => (Return (sh cmd), World (files w) (stdout w) (commands w ++ [cmd])).

(** [git_commit_push], lines 24-31 *)
Definition git_commit_push (sh : shell) (fls : list string) (message : string) : M unit :=
  let failed e := print ("[-] Git command failed: " ++ e) in
  r <- run sh (["git"; "add"] ++ fls) ;;
  match r with
  | Some e => failed e
  | None =>
      r <- run sh ["git"; "commit"; "-m"; message] ;;
      match r with
      | Some e => failed e
      | None =>
          r <- run sh ["git"; "push"] ;;
          match r with
          | Some e => failed e
          | None => print "[+] Changes pushed to GitHub."
          end
      end
  end.

(** [d[k] = d.get(k, 0) + x], the update of lines 55, 84 and 87 *)
Definition accumulate (d : Dict.t Q) (k : string) (x : Q) : Dict.t Q :=
  Dict.set k (Dict.get_default k 0 d + x)%Q d.

(** the same update, for one item of [d.items()] *)
Definition accumulate1 (d : Dict.t Q) (kv : string * Q) : Dict.t Q :=
  accumulate d (fst kv) (snd kv).

(** [start_timer], lines 33-40; [now] is the reading of [time.time()] *)
Definition start_timer (now : Q) (category : string) : M unit :=
  db <- load_db ;;
  if Dict.mem "active" db then
    print "[-] Timer already running. Stop it first."
  else
    let db := Dict.set "active" (Session category now) db in
    save_db db ;;
    print ("[+] Started '" ++ category ++ "' session.").

(** the loop body of lines 83-87 for one item of a day *)
Definition add_item (date_str : string)
    (acc : Dict.t Q * Dict.t (Dict.t Q)) (item : string * Q)
    : Dict.t Q * Dict.t (Dict.t Q) :=
  let '(totals, daily_logs) := acc in
  let '(cat, secs) := item in
  let totals := accumulate totals cat secs in
  let daily_logs :=
    if negb (Dict.mem date_str daily_logs)
    then Dict.set date_str [] daily_logs else daily_logs in
  let day_log := Dict.get_default date_str [] daily_logs in
  let daily_logs :=
    Dict.set date_str (accumulate day_log cat secs) daily_logs in
  (totals, daily_logs).

(** [start <= date_obj <= end] *)
Definition in_window (start date_obj end_ : datetime) : bool :=
  dt_le start date_obj && dt_le date_obj end_.

(** the loop of lines 74-87 over [db.items()]; a session stored under a
    date inside the window makes [totals.get(cat, 0) + secs] add a string to
    a number *)
Fixpoint aggregate (start end_ : datetime) (its : list (string * value))
    (acc : Dict.t Q * Dict.t (Dict.t Q))
    : outcome (Dict.t Q * Dict.t (Dict.t Q)) :=
  match its with
  | [] => Return acc
  | (date_str, data) :: rest =>
      if String.eqb date_str "active" then aggregate start end_ rest acc
      else
        match strptime_Ymd date_str with
        | None => aggregate start end_ rest acc
        | Some date_obj =>
            if negb (in_window start date_obj end_)
            then aggregate start end_ rest acc
            else
              match data with
              | Day data =>
                  aggregate start end_ rest
                    (fold_left (add_item date_str) (Dict.items data) acc)
              | Session _ _ => Raise TypeError
              end
        end
  end.

(** [sorted]: a stable sort, [le x y] telling that [x] may stand before [y] *)
Fixpoint insert {A} (le : A -> A -> bool) (x : A) (l : list A) : list A :=
  match l with
  | [] => [x]
  | y :: r => if le x y then x :: y :: r else y :: insert le x r
  end.

Definition sorted {A} (le : A -> A -> bool) (l : list A) : list A :=
  fold_right (insert le) [] l.

(** [key=lambda x: -x[1]] *)
Definition by_neg_hours (x y : string * Q) : bool :=
  Qle_bool (- snd x) (- snd y).

(** [reverse=True] on strings *)
Definition str_ge (x y : string) : bool := String.leb y x.

Definition table_head : string :=
  "| Category  | Time Spent (hrs) |" ++ nl
  ++ "|-----------|------------------|" ++ nl.

(** [f"| {cat:<9}| {h:>6} hrs        |\n"] *)
Definition row (cat : string) (h : Q) : string :=
  "| " ++ ljust 9 cat ++ "| " ++ rjust 6 (float_str h) ++ " hrs        |" ++ nl.

Definition hours (totals : Dict.t Q) : Dict.t Q :=
  map (fun kv => (fst kv, round2 (hours_of (snd kv)))) totals.

(** the rows of the top table, lines 102-104 *)
Definition table_rows (hrs : Dict.t Q) : list (string * Q) :=
  sorted by_neg_hours (Dict.items hrs).

Definition md_table (hrs : Dict.t Q) : string :=
  table_head
  ++ String.concat "" (map (fun kv => row (fst kv) (snd kv)) (table_rows hrs)).

(** the days of the daily section in the order they are written, line 107 *)
Definition report_days (daily_logs : Dict.t (Dict.t Q)) : list string :=
  sorted str_ge (Dict.keys daily_logs).

(** the rows of one day, lines 110-112 *)
Definition day_rows (day_log : Dict.t Q) : list (string * Q) :=
  map (fun kv => (fst kv, round2 (hours_of (snd kv)))) (Dict.items day_log).

Definition day_section (daily_logs : Dict.t (Dict.t Q)) (d : string) : string :=
  "### " ++ d ++ nl ++ nl
  ++ table_head
  ++ String.concat ""
       (map (fun kv => row (fst kv) (snd kv))
            (day_rows (Dict.get_default d [] daily_logs)))
  ++ nl.

Definition daily_section (daily_logs : Dict.t (Dict.t Q)) : string :=
  nl ++ "## 📅 Daily Logs (Past 7 Days)" ++ nl ++ nl
  ++ String.concat "" (map (day_section daily_logs) (report_days daily_logs)).

Definition summary_content (hrs : Dict.t Q) (daily_logs : Dict.t (Dict.t Q)) : string :=
  "## 🧠 Weekly Grind Time Breakdown" ++ nl ++ nl
  ++ "![Grind Chart](./" ++ REPORT_PATH ++ ")" ++ nl ++ nl
  ++ md_table hrs
  ++ daily_section daily_logs.

(** [generate_report], lines 67-128; [now] is the reading of
    [datetime.now()].  The plotting library is taken to save what it is
    given. *)
Definition generate_report (now : datetime) : M unit :=
  db <- load_db ;;
  let end_ := now in
  match sub_days end_ 7 with
  | None => raise OverflowError
  | Some start =>
      match aggregate start end_ (Dict.items db) ([], []) with
      | Raise e => raise e
      | Return (totals, daily_logs) =>
          match totals with
          | [] => print "[-] No data to generate report."
          | _ :: _ =>
              let hrs := hours totals in
              write_close REPORT_PATH
                (Image "Weekly Grind Breakdown" (Dict.keys hrs) (Dict.values hrs)) ;;
              print ("[+] Pie chart saved to '" ++ REPORT_PATH ++ "'") ;;
              let content := summary_content hrs daily_logs in
              open_w SUMMARY_PATH ;;
              write_close SUMMARY_PATH (Text content) ;;
              open_w README_PATH ;;
              write_close README_PATH (Text content) ;;
              print "[+] Markdown summary written to README.md and grind_summary.md"
          end
      end
  end.

(** [stop_timer], lines 42-65; [end_time] is the reading of [time.time()],
    [now] that of [datetime.now()] on line 50 and [report_now] the one
    [generate_report] takes.  Outside the ledger layout, with a day stored
    under ["active"] or a session under today's date, the subscripts of
    lines 49-55 are taken to fail. *)
Definition stop_timer (sh : shell) (end_time : Q) (now report_now : datetime) : M unit :=
  db <- load_db ;;
  if negb (Dict.mem "active" db) then
    print "[-] No active timer running."
  else
    match Dict.get "active" db with
    | Some (Session category start) =>
        let db := Dict.remove "active" db in
        let duration := (end_time - start)%Q in
        let date_str := strftime_Ymd now in
        let db := if negb (Dict.mem date_str db)
                  then Dict.set date_str (Day []) db else db in
        match Dict.get date_str db with
        | Some (Day day_log) =>
            let db :=
              Dict.set date_str (Day (accumulate day_log category duration)) db in
            save_db db ;;
            print ("[+] Stopped session. Logged " ++ fmt_2f (duration / 3600)%Q
                   ++ " hrs to '" ++ category ++ "'.") ;;
            generate_report report_now ;;
            git_commit_push sh
              [DB_PATH; REPORT_PATH; SUMMARY_PATH; README_PATH]
              ("Auto-update: Logged " ++ fmt_2f (duration / 3600)%Q
               ++ " hrs to " ++ category ++ " on " ++ date_str)
        | _ => raise TypeError
        end
    | _ => raise (KeyError "start")
    end.

(** the command line, lines 130-149; without a command the help text of
    the parser is printed, here its first line *)
Inductive command : Type :=
| CmdStart (category : string)
| CmdStop
| CmdReport
| CmdNone.

(** what one run of the program reads from outside: the clocks and the
    fate of the git commands *)
Record env : Type := Env {
  time_time : Q;
  datetime_now : datetime;
  report_time : datetime;
  git : shell
}.

Definition main (e : env) (c : command) : M unit :=
  match c with
  | CmdStart category => start_timer (time_time e) category
  | CmdStop => stop_timer (git e) (time_time e) (datetime_now e) (report_time e)
  | CmdReport => generate_report (datetime_now e)
  | CmdNone => print "usage: tracker.py [-h] {start,stop,report} ..."
  end.

(** ** Vocabulary of the properties *)

(** the ledger [load_db] finds in a world, when it finds one *)
Definition ledger_of (w : world) : option db :=
  match files w DB_PATH with
  | None => Some []
  | Some (Json d) => Some d
  | Some _ => None
  end.

(** the seconds recorded for a category on a date *)
Definition seconds_at (d : db) (date_str cat : string) : option Q :=
  match Dict.get date_str d with
  | Some (Day data) => Dict.get cat data
  | _ => None
  end.

(** the start of the session in flight *)
Definition active_start (d : db) : option Q :=
  match Dict.get "active" d with
  | Some (Session _ s) => Some s
  | _ => None
  end.

(** a world that differs from [w] by one more line of output only *)
Definition says (line : string) (w : world) : world :=
  World (files w) (stdout w ++ [line]) (commands w).

(** the position of a datetime on the time line, in microseconds *)
Definition dt_micros (dt : datetime) : Z :=
  ((toordinal dt * 86400 + hour dt * 3600 + minute dt * 60 + second dt)
   * 1000000) + microsecond dt.

Definition time_of_day (dt : datetime) : Z :=
  (hour dt * 3600 + minute dt * 60 + second dt) * 1000000 + microsecond dt.

Definition WEEK : Z := 7 * 86400 * 1000000.

(** the items of the ledger that pass the three tests of lines 75-82 *)
Definition passes (start end_ : datetime) (kv : string * value) : bool :=
  negb (String.eqb (fst kv) "active")
  && match strptime_Ymd (fst kv) with
     | Some date_obj => in_window start date_obj end_
     | None => false
     end.

(** the days that pass, with their seconds, in the order of the ledger *)
Definition window_days (start end_ : datetime) (d : db)
    : list (string * Dict.t Q) :=
  flat_map (fun kv =>
              match snd kv with
              | Day data => if passes start end_ kv then [(fst kv, data)] else []
              | Session _ _ => []
              end) d.

(** every entry of those days, in the order the loop meets them *)
Definition window_entries (start end_ : datetime) (d : db) : list (string * Q) :=
  flat_map snd (window_days start end_ d).

Definition nonempty {A} (l : list A) : bool :=
  match l with
  | [] => false
  | _ :: _ => true
  end.

(** a date key in the form [strftime] writes it *)
Definition canonical (k : string) : bool :=
  match strptime_Ymd k with
  | Some o => String.eqb (strftime_Ymd o) k
  | None => false
  end.

(** the day a date key names, [0] for a key that is not a date *)
Definition day_number (k : string) : Z :=
  match strptime_Ymd k with
  | Some o => toordinal o
  | None => 0
  end.

(** what [month_day] owes: a month, a day of that month, and the day of
    the year it started from *)
Definition month_day_ok (leap : bool) (n : Z) : bool :=
  let '(m, d) := month_day leap n in
  (1 <=? m) && (m <=? 12) && (1 <=? d)
  && (d <=? (if (m =? 2) && leap then 29
             else nth (Z.to_nat m) DAYS_IN_MONTH (-1)))
  && (nth (Z.to_nat m) DAYS_BEFORE_MONTH (-1)
      + (if (2 <? m) && leap then 1 else 0) + d =? n + 1).

(** the fields of a date, in calendar order *)
Definition ymd_lt (y1 m1 d1 y2 m2 d2 : Z) : Prop :=
  y1 < y2 \/ (y1 = y2 /\ (m1 < m2 \/ (m1 = m2 /\ d1 < d2))).

(** decimal digits, for the text [strftime] writes *)
Definition dig (z : Z) : ascii := ascii_of_nat (48 + Z.to_nat z).

Definition digits2 (n : Z) : string :=
  String (dig (n / 10)) (String (dig (n mod 10)) EmptyString).

Definition digits4 (n : Z) : string :=
  String (dig (n / 1000)) (String (dig (n / 100 mod 10)) (digits2 (n mod 100))).

(** [f] holds of the [n] integers from [i] on *)
Fixpoint all_below (f : Z -> bool) (n : nat) (i : Z) : bool :=
  match n with
  | O => true
  | S n' => f i && all_below f n' (i + 1)
  end.

(** no accumulated duration is negative *)
Definition nonneg_day (data : Dict.t Q) : Prop :=
  Forall (fun cs => (0 <= snd cs)%Q) data.

Definition nonneg_value (v : value) : Prop :=
  match v with
  | Day data => nonneg_day data
  | Session _ _ => True
  end.

Definition nonneg_db (d : db) : Prop :=
  Forall (fun kv => nonneg_value (snd kv)) d.

Definition nonneg_world (w : world) : Prop :=
  match files w DB_PATH with
  | Some (Json d) => nonneg_db d
  | _ => True
  end.

(** the clock has not run backwards since the session in flight began *)
Definition clock_after_start (now : Q) (w : world) : Prop :=
  match files w DB_PATH with
  | Some (Json d) =>
      match active_start d with
      | Some s => (s <= now)%Q
      | None => True
      end
  | _ => True
  end.

(** what the runs keep true of the ledger file up to clock reading [t]:
    unique keys, no negative duration, no session begun after [t] *)
Definition tracked (t : Q) (w : world) : Prop :=
  match files w DB_PATH with
  | Some (Json d) =>
      Dict.wf d /\ nonneg_db d
      /\ match active_start d with
         | Some s => (s <= t)%Q
         | None => True
         end
  | _ => True
  end.

(** the program run once per element, each run with its own readings *)
Fixpoint runs (l : list (env * command)) (w : world) : world :=
  match l with
  | [] => w
  | (e, c) :: r => runs r (snd (main e c w))
  end.

(** the readings of [time.time()] never decrease along the runs *)
Fixpoint monotone_from (t : Q) (l : list (env * command)) : Prop :=
  match l with
  | [] => True
  | (e, _) :: r => (t <= time_time e)%Q /\ monotone_from (time_time e) r
  end.

(** the two statements of [save_db], and the worlds another process can
    see while they run: the one before, and the one after each statement *)
Definition save_db_steps (data : db) : list (M unit) :=
  [open_w DB_PATH; write_close DB_PATH (Json data)].

Fixpoint seen_during (steps : list (M unit)) (w : world) : list world :=
  w :: match steps with
       | [] => []
       | s :: r => seen_during r (snd (s w))
       end.

(** what a reader of the ledger file finds in a world *)
Definition reads (w : world) : outcome db := fst (load_db w).

Definition empty_world : world := World (fun _ => None) [] [].

(** the seconds a list of entries holds for one category *)
Fixpoint total_of (cat : string) (entries : list (string * Q)) : Q :=
  match entries with
  | [] => 0
  | (c, x) :: r =>
      if String.eqb c cat then (x + total_of cat r)%Q else total_of cat r
  end.

(** every date key of the ledger is in the form [strftime] writes *)
Definition canonical_db (d : db) : Prop :=
  Forall (fun kv => fst kv = "active" \/ canonical (fst kv) = true) d.

(** the three commands of [git_commit_push], in the order it runs them *)
Definition git_add (fls : list string) : list string := ["git"; "add"] ++ fls.

Definition git_commit (message : string) : list string :=
  ["git"; "commit"; "-m"; message].

Definition git_push : list string := ["git"; "push"].

(** the ledger has a file that [json.load] reads *)
Definition sound (w : world) : Prop :=
  exists d, ledger_of w = Some d /\ layout_ok d /\ canonical_db d.

(** * Properties *)

(** ** Dictionaries *)
Module DictFacts.
Section Facts.
Context {V : Type}.
Implicit Types (d : Dict.t V) (k : string) (v : V).

Lemma mem_get k d : Dict.mem k d = true <-> exists v, Dict.get k d = Some v.
Proof.
  unfold Dict.mem. destruct (Dict.get k d) as [v|]; split.
  - intros _. now exists v.
  - reflexivity.
  - discriminate.
  - intros [v E]. discriminate.
Qed.

Lemma mem_false_get k d : Dict.mem k d = false <-> Dict.get k d = None.
Proof.
  unfold Dict.mem. destruct (Dict.get k d); split; congruence.
Qed.

Lemma get_In k v d : Dict.get k d = Some v -> In (k, v) d.
Proof.
  induction d as [|[k' v'] r IH]; simpl; [discriminate|].
  destruct (String.eqb_spec k' k) as [->|N].
  - intros [= ->]. now left.
  - intros E. right. now apply IH.
Qed.

Lemma get_None_keys k d : Dict.get k d = None <-> ~ In k (Dict.keys d).
Proof.
  induction d as [|[k' v'] r IH]; simpl.
  - split; [intros _ []|reflexivity].
  - destruct (String.eqb_spec k' k) as [->|N].
    + split; [discriminate|]. intros H. exfalso. apply H. now left.
    + rewrite IH. split.
      * intros H [E|I]; [now apply N|now apply H].
      * intros H I. apply H. now right.
Qed.

Lemma In_get k v d : Dict.wf d -> In (k, v) d -> Dict.get k d = Some v.
Proof.
  unfold Dict.wf.
  induction d as [|[k' v'] r IH]; simpl; [intros _ []|].
  intros ND [E|I].
  - injection E as -> ->. now rewrite String.eqb_refl.
  - inversion ND as [|? ? NI ND']; subst.
    destruct (String.eqb_spec k' k) as [->|N].
    + exfalso. apply NI. change k with (fst (k, v)). now apply in_map.
    + now apply IH.
Qed.

Lemma get_set_same k v d : Dict.get k (Dict.set k v d) = Some v.
Proof.
  induction d as [|[k' v'] r IH]; simpl.
  - now rewrite String.eqb_refl.
  - destruct (String.eqb_spec k' k) as [->|N]; simpl.
    + now rewrite String.eqb_refl.
    + destruct (String.eqb_spec k' k); [contradiction|exact IH].
Qed.

Lemma get_set_other k k' v d :
  k' <> k -> Dict.get k' (Dict.set k v d) = Dict.get k' d.
Proof.
  intros N. induction d as [|[k0 v0] r IH]; simpl.
  - destruct (String.eqb_spec k k'); [congruence|reflexivity].
  - destruct (String.eqb_spec k0 k) as [->|N0]; simpl.
    + destruct (String.eqb_spec k k'); [congruence|reflexivity].
    + now rewrite IH.
Qed.

Lemma keys_set_present k v d :
  In k (Dict.keys d) -> Dict.keys (Dict.set k v d) = Dict.keys d.
Proof.
  induction d as [|[k0 v0] r IH]; simpl; [intros []|].
  destruct (String.eqb_spec k0 k) as [->|N0]; simpl; [reflexivity|].
  intros [E|I]; [contradiction|]. now rewrite IH.
Qed.

Lemma keys_set_absent k v d :
  ~ In k (Dict.keys d) -> Dict.keys (Dict.set k v d) = (Dict.keys d ++ [k])%list.
Proof.
  induction d as [|[k0 v0] r IH]; simpl; [reflexivity|].
  intros NI. destruct (String.eqb_spec k0 k) as [->|N0]; simpl.
  - exfalso. apply NI. now left.
  - rewrite IH; [reflexivity|]. intros I. apply NI. now right.
Qed.

Lemma In_keys_set k k' v d :
  In k' (Dict.keys (Dict.set k v d)) <-> k' = k \/ In k' (Dict.keys d).
Proof.
  destruct (in_dec string_dec k (Dict.keys d)) as [I|NI].
  - rewrite keys_set_present by assumption. split; [now right|].
    intros [->|H]; assumption.
  - rewrite keys_set_absent by assumption. rewrite in_app_iff. simpl.
    split; [intros [H|[H|[]]]; auto|intros [H|H]; auto].
Qed.

Lemma wf_set k v d : Dict.wf d -> Dict.wf (Dict.set k v d).
Proof.
  unfold Dict.wf. intros ND.
  destruct (in_dec string_dec k (Dict.keys d)) as [I|NI].
  - now rewrite keys_set_present.
  - rewrite keys_set_absent by assumption.
    apply NoDup_app; [assumption|repeat constructor; intros []|].
    intros x Ix [<-|[]]. now apply NI.
Qed.

Lemma get_remove_other k k' d :
  k' <> k -> Dict.get k' (Dict.remove k d) = Dict.get k' d.
Proof.
  intros N. induction d as [|[k0 v0] r IH]; simpl; [reflexivity|].
  destruct (String.eqb_spec k0 k) as [->|N0]; simpl.
  - destruct (String.eqb_spec k k'); [congruence|reflexivity].
  - now rewrite IH.
Qed.

Lemma In_remove x k d : In x (Dict.remove k d) -> In x d.
Proof.
  induction d as [|[k0 v0] r IH]; simpl; [intros []|].
  destruct (String.eqb_spec k0 k) as [->|N0]; simpl.
  - now right.
  - intros [E|I]; [now left|right; now apply IH].
Qed.

Lemma In_keys_remove k' k d :
  In k' (Dict.keys (Dict.remove k d)) -> In k' (Dict.keys d).
Proof.
  unfold Dict.keys. rewrite !in_map_iff.
  intros [x [E I]]. exists x. split; [assumption|].
  now apply In_remove with k.
Qed.

Lemma wf_remove k d : Dict.wf d -> Dict.wf (Dict.remove k d).
Proof.
  unfold Dict.wf.
  induction d as [|[k0 v0] r IH]; simpl; [trivial|].
  intros ND. inversion ND as [|? ? NI ND']; subst.
  destruct (String.eqb_spec k0 k) as [->|N0]; simpl; [assumption|].
  constructor; [|now apply IH].
  intros I. apply NI. now apply In_keys_remove with k.
Qed.

Lemma get_remove_same k d :
  Dict.wf d -> Dict.get k (Dict.remove k d) = None.
Proof.
  unfold Dict.wf.
  induction d as [|[k0 v0] r IH]; simpl; [reflexivity|].
  intros ND. inversion ND as [|? ? NI ND']; subst.
  destruct (String.eqb_spec k0 k) as [->|N0]; simpl.
  - now apply get_None_keys.
  - destruct (String.eqb_spec k0 k); [contradiction|now apply IH].
Qed.

Lemma In_set x k v d :
  In x (Dict.set k v d) -> x = (k, v) \/ In x d.
Proof.
  induction d as [|[k0 v0] r IH]; simpl.
  - intros [E|[]]. now left.
  - destruct (String.eqb_spec k0 k) as [->|N0]; simpl.
    + intros [E|I]; [now left|right; now right].
    + intros [E|I]; [right; now left|].
      destruct (IH I) as [E|I']; [now left|right; now right].
Qed.
End Facts.
End DictFacts.

(** ** Loading and saving *)

Lemma load_db_ledger w d :
  ledger_of w = Some d -> load_db w = (Return d, w).
Proof.
  unfold ledger_of, load_db, bind, path_exists, json_load, ret.
  destruct (files w DB_PATH) as [[]|] eqn:E; simpl; rewrite ?E;
    intros H; inversion H; subst; reflexivity.
Qed.

Lemma load_db_corrupt w :
  ledger_of w = None -> load_db w = (Raise JSONDecodeError, w).
Proof.
  unfold ledger_of, load_db, bind, path_exists, json_load, ret.
  destruct (files w DB_PATH) as [[]|] eqn:E; simpl; rewrite ?E;
    intros H; inversion H; subst; reflexivity.
Qed.

Lemma save_db_world data w :
  save_db data w
  = (Return tt,
     World (fs_write DB_PATH (Json data) (fs_write DB_PATH Truncated (files w)))
           (stdout w) (commands w)).
Proof. reflexivity. Qed.

Lemma fs_write_same p c f : fs_write p c f p = Some c.
Proof. unfold fs_write. now rewrite String.eqb_refl. Qed.

Lemma fs_write_other p q c f : q <> p -> fs_write p c f q = f q.
Proof.
  unfold fs_write. intros N. destruct (String.eqb_spec q p); congruence.
Qed.

Lemma ledger_of_says line w : ledger_of (says line w) = ledger_of w.
Proof. reflexivity. Qed.



(** C4, as the code has it. [save_db] leaves the whole ledger in the ledger
    file, in place of what was there, and touches no other file; it does so
    in two steps, and between them the file is empty. *)
Theorem save_db_overwrites (data : db) (w : world) :
  let w' := snd (save_db data w) in
  fst (save_db data w) = Return tt
  /\ files w' DB_PATH = Some (Json data)
  /\ reads w' = Return data
  /\ (forall p, p <> DB_PATH -> files w' p = files w p)
  /\ seen_during (save_db_steps data) w = [w; snd (open_w DB_PATH w); w']
  /\ files (snd (open_w DB_PATH w)) DB_PATH = Some Truncated.
Proof.
  cbn zeta. rewrite save_db_world. simpl.
  repeat split.
  intros p N. now rewrite !fs_write_other.
Qed.

(** C4, as stated, fails: while [save_db] runs on a world whose ledger file
    is sound, a reader can find a file that is neither the old ledger nor
    the new one, and that [json.load] rejects. *)
Lemma save_db_not_atomic :
  let old := [("active", Session "coding" 100%Q)] in
  let new := [("2024-01-08", Day [("coding", 3661%Q)])] in
  let w := World (fs_write DB_PATH (Json old) (fun _ => None)) [] [] in
  reads w = Return old
  /\ exists w', In w' (seen_during (save_db_steps new) w)
                /\ reads w' = Raise JSONDecodeError.
Proof.
  cbn zeta. split; [reflexivity|].
  eexists. split.
  - right. left. reflexivity.
  - reflexivity.
Qed.

(** ** Starting a session *)

(** C3. With a session in flight, [start_timer] only prints its refusal: no
    file is written, so the ledger file still holds the same ledger, the
    session in flight included. *)
Theorem start_timer_already_running (w : world) (now : Q) (category : string) (d : db) :
  ledger_of w = Some d ->
  Dict.mem "active" d = true ->
  let w' := says "[-] Timer already running. Stop it first." w in
  start_timer now category w = (Return tt, w')
  /\ files w' = files w
  /\ ledger_of w' = Some d
  /\ Dict.get "active" d <> None.
Proof.
  intros L A. cbn zeta.
  repeat split.
  - unfold start_timer, bind. rewrite (load_db_ledger _ _ L). now rewrite A.
  - exact L.
  - apply DictFacts.mem_get in A. destruct A as [v ->]. discriminate.
Qed.

Lemma start_timer_already_running_witness :
  let d := [("active", Session "coding" 100%Q)] in
  let w := World (fs_write DB_PATH (Json d) (fun _ => None)) [] [] in
  start_timer 200%Q "reading" w
  = (Return tt, says "[-] Timer already running. Stop it first." w).
Proof.
  intros d w.
  apply (start_timer_already_running w 200%Q "reading" d); reflexivity.
Defined.

(** C10. With no session in flight, [start_timer] accepts every category,
    the empty string too: it saves the ledger with the session
    [{category, start = now}] under ["active"], the rest of the ledger as it
    was, and prints its confirmation. *)
Theorem start_timer_any_category (w : world) (now : Q) (category : string) (d : db) :
  ledger_of w = Some d ->
  Dict.mem "active" d = false ->
  let d' := Dict.set "active" (Session category now) d in
  let w' := snd (start_timer now category w) in
  fst (start_timer now category w) = Return tt
  /\ ledger_of w' = Some d'
  /\ Dict.get "active" d' = Some (Session category now)
  /\ (forall k, k <> "active" -> Dict.get k d' = Dict.get k d)
  /\ stdout w' = app (stdout w) ["[+] Started '" ++ category ++ "' session."].
Proof.
  intros L A. cbn zeta.
  unfold start_timer, bind. rewrite (load_db_ledger _ _ L), A.
  rewrite save_db_world. simpl.
  repeat split.
  - apply DictFacts.get_set_same.
  - intros k N. now apply DictFacts.get_set_other.
Qed.

Lemma start_timer_any_category_witness :
  ledger_of (snd (start_timer 100%Q "" empty_world))
  = Some [("active", Session "" 100%Q)].
Proof.
  apply (start_timer_any_category empty_world 100%Q "" []); reflexivity.
Defined.

(** ** Stopping a session *)

(** C6. With no session in flight, [stop_timer] only prints its refusal:
    no file is written, the ledger and the three report files included, and
    no command is run. *)
Theorem stop_timer_no_active (sh : shell) (end_time : Q) (now report_now : datetime)
    (w : world) (d : db) :
  ledger_of w = Some d ->
  Dict.mem "active" d = false ->
  let w' := says "[-] No active timer running." w in
  stop_timer sh end_time now report_now w = (Return tt, w')
  /\ files w' = files w
  /\ commands w' = commands w
  /\ ledger_of w' = Some d.
Proof.
  intros L A. cbn zeta.
  repeat split; [|exact L].
  unfold stop_timer, bind. rewrite (load_db_ledger _ _ L). now rewrite A.
Qed.

Lemma stop_timer_no_active_witness :
  let d := [("2024-01-08", Day [("coding", 3661%Q)])] in
  let w := World (fs_write DB_PATH (Json d) (fun _ => None)) [] [] in
  stop_timer (fun _ => None) 5000%Q
    (Datetime 2024 1 8 12 0 0 0) (Datetime 2024 1 8 12 0 0 1) w
  = (Return tt, says "[-] No active timer running." w).
Proof.
  intros d w.
  apply (stop_timer_no_active (fun _ => None) 5000%Q
           (Datetime 2024 1 8 12 0 0 0) (Datetime 2024 1 8 12 0 0 1) w d);
    reflexivity.
Defined.

Lemma load_db_same_world w : snd (load_db w) = w.
Proof.
  destruct (ledger_of w) as [d|] eqn:L.
  - now rewrite (load_db_ledger _ _ L).
  - now rewrite (load_db_corrupt _ L).
Qed.

Lemma snd_bind {A B} (m : M A) (k : A -> M B) w :
  snd (bind m k w)
  = match fst (m w) with
    | Return a => snd (k a (snd (m w)))
    | Raise _ => snd (m w)
    end.
Proof.
  unfold bind. now destruct (m w) as [[a|e] w'].
Qed.

(** [generate_report] writes the three report files and no other *)
Lemma generate_report_other_files now w p :
  p <> REPORT_PATH -> p <> SUMMARY_PATH -> p <> README_PATH ->
  files (snd (generate_report now w)) p = files w p.
Proof.
  intros N1 N2 N3. unfold generate_report.
  rewrite snd_bind. rewrite load_db_same_world.
  destruct (fst (load_db w)) as [d|e]; [|reflexivity].
  destruct (sub_days now 7) as [start|]; [|reflexivity].
  destruct (aggregate start now (Dict.items d) ([], [])) as [[totals dl]|e];
    [|reflexivity].
  destruct totals as [|t totals]; [reflexivity|].
  cbn. now rewrite !fs_write_other.
Qed.

Lemma generate_report_commands now w :
  commands (snd (generate_report now w)) = commands w.
Proof.
  unfold generate_report.
  rewrite snd_bind. rewrite load_db_same_world.
  destruct (fst (load_db w)) as [d|e]; [|reflexivity].
  destruct (sub_days now 7) as [start|]; [|reflexivity].
  destruct (aggregate start now (Dict.items d) ([], [])) as [[totals dl]|e];
    [|reflexivity].
  now destruct totals.
Qed.

(** [git_commit_push] writes no file *)
Lemma git_commit_push_files sh fls message w :
  files (snd (git_commit_push sh fls message w)) = files w.
Proof.
  unfold git_commit_push, bind, run. cbn.
  repeat match goal with
         | |- context [match sh ?c with _ => _ end] => destruct (sh c); cbn
         end; reflexivity.
Qed.

Lemma dash_not_active a b : a ++ "-" ++ b <> "active".
Proof.
  intros H.
  repeat (destruct a as [|? a]; simpl in H; [discriminate H|];
          injection H as _ H).
  destruct a; simpl in H; discriminate H.
Qed.

Lemma strftime_not_active now : strftime_Ymd now <> "active".
Proof. unfold strftime_Ymd. apply dash_not_active. Qed.

(** the value found under a key other than ["active"] is a day *)
Lemma layout_get_day d k v :
  layout_ok d -> k <> "active" -> Dict.get k d = Some v ->
  exists data, v = Day data /\ Dict.wf data.
Proof.
  intros [_ F] N G. apply DictFacts.get_In in G.
  rewrite Forall_forall in F. specialize (F _ G). unfold entry_ok in F.
  simpl in F. destruct v as [c s|data].
  - contradiction.
  - exists data. now split.
Qed.

(** The ledger [stop_timer] saves: lines 47-55 on the dictionary. *)
Lemma stop_timer_world sh end_time now report_now w d category start :
  ledger_of w = Some d ->
  layout_ok d ->
  Dict.get "active" d = Some (Session category start) ->
  let today := strftime_Ymd now in
  let d1 := Dict.remove "active" d in
  let day_log := match Dict.get today d with
                 | Some (Day data) => data
                 | _ => []
                 end in
  let d2 := if Dict.mem today d1 then d1 else Dict.set today (Day []) d1 in
  let d' := Dict.set today
              (Day (accumulate day_log category (end_time - start))) d2 in
  ledger_of (snd (stop_timer sh end_time now report_now w)) = Some d'.
Proof.
  intros L LO A. cbn zeta.
  pose proof (strftime_not_active now) as NA.
  assert (G1 : Dict.get (strftime_Ymd now) (Dict.remove "active" d)
               = Dict.get (strftime_Ymd now) d)
    by now apply DictFacts.get_remove_other.
  unfold stop_timer. rewrite snd_bind, load_db_same_world.
  rewrite (load_db_ledger _ _ L). cbn [fst].
  assert (MA : Dict.mem "active" d = true)
    by (apply DictFacts.mem_get; eauto).
  rewrite MA, A. cbn [negb].
  set (today := strftime_Ymd now) in *.
  set (d1 := Dict.remove "active" d) in *.
  assert (G2 : Dict.get today (if Dict.mem today d1 then d1
                               else Dict.set today (Day []) d1)
               = Some (Day match Dict.get today d with
                           | Some (Day data) => data
                           | _ => []
                           end)).
  { unfold Dict.mem. rewrite G1.
    destruct (Dict.get today d) as [v|] eqn:G.
    - rewrite G1.
      destruct (layout_get_day _ _ _ LO NA G) as [data [-> _]]. reflexivity.
    - apply DictFacts.get_set_same. }
  replace (if negb (Dict.mem today d1) then Dict.set today (Day []) d1 else d1)
    with (if Dict.mem today d1 then d1 else Dict.set today (Day []) d1)
    by now destruct (Dict.mem today d1).
  rewrite G2.
  rewrite !snd_bind. rewrite save_db_world. cbn [fst snd].
  unfold print at 1. cbn [fst snd].
  match goal with
  | |- context [generate_report report_now ?w0] =>
      pose proof (generate_report_other_files report_now w0 DB_PATH) as GR;
      destruct (generate_report report_now w0) as [[[]|e] w1]
  end; cbn [fst snd] in *.
  - unfold ledger_of. rewrite git_commit_push_files.
    rewrite GR by discriminate. reflexivity.
  - unfold ledger_of. rewrite GR by discriminate. reflexivity.
Qed.

Lemma seconds_at_active d cat :
  layout_ok d -> seconds_at d "active" cat = None.
Proof.
  intros [_ F]. unfold seconds_at.
  destruct (Dict.get "active" d) as [[c s|data]|] eqn:G; try reflexivity.
  apply DictFacts.get_In in G. rewrite Forall_forall in F.
  specialize (F _ G). unfold entry_ok in F. simpl in F. now destruct F.
Qed.

(** C2. With a session [{category, start}] in flight, [stop_timer] at clock
    reading [end_time] saves a ledger without the session, in which today's
    seconds for the category are the former ones (zero when there were
    none) plus [end_time - start], and every other date and category reads
    as before. *)
Theorem stop_timer_accumulates (sh : shell) (end_time : Q) (now report_now : datetime)
    (w : world) (d : db) (category : string) (start : Q) :
  ledger_of w = Some d ->
  layout_ok d ->
  Dict.get "active" d = Some (Session category start) ->
  let today := strftime_Ymd now in
  let duration := (end_time - start)%Q in
  exists d',
    ledger_of (snd (stop_timer sh end_time now report_now w)) = Some d'
    /\ Dict.get "active" d' = None
    /\ seconds_at d' today category
       = Some (match seconds_at d today category with
               | Some old => old
               | None => 0
               end + duration)%Q
    /\ (forall date_str cat,
          date_str <> today \/ cat <> category ->
          seconds_at d' date_str cat = seconds_at d date_str cat).
Proof.
  intros L LO A. cbn zeta.
  pose proof (stop_timer_world sh end_time now report_now w d category start
                L LO A) as W.
  cbn zeta in W. eexists. split; [exact W|]. clear W.
  pose proof (strftime_not_active now) as NA.
  set (today := strftime_Ymd now) in *.
  set (d1 := Dict.remove "active" d).
  set (d2 := if Dict.mem today d1 then d1 else Dict.set today (Day []) d1).
  assert (G2 : forall k, k <> today -> Dict.get k d2 = Dict.get k d1).
  { intros k N. unfold d2. destruct (Dict.mem today d1); [reflexivity|].
    now apply DictFacts.get_set_other. }
  split; [|split].
  - rewrite DictFacts.get_set_other by congruence.
    rewrite G2 by congruence.
    apply DictFacts.get_remove_same. apply LO.
  - unfold seconds_at, accumulate. rewrite DictFacts.get_set_same.
    rewrite DictFacts.get_set_same. unfold Dict.get_default.
    now destruct (Dict.get today d) as [[c s|data]|].
  - intros date_str cat N.
    destruct (String.eqb_spec date_str today) as [->|ND].
    + destruct N as [N|N]; [contradiction|].
      unfold seconds_at, accumulate. rewrite DictFacts.get_set_same.
      rewrite DictFacts.get_set_other by assumption.
      now destruct (Dict.get today d) as [[c s|data]|].
    + destruct (String.eqb_spec date_str "active") as [->|NAc].
      * rewrite (seconds_at_active d) by assumption.
        unfold seconds_at.
        rewrite DictFacts.get_set_other by assumption.
        rewrite G2 by assumption.
        unfold d1. rewrite DictFacts.get_remove_same; [reflexivity|apply LO].
      * unfold seconds_at.
        rewrite DictFacts.get_set_other by assumption.
        rewrite G2 by assumption.
        unfold d1. now rewrite DictFacts.get_remove_other.
Qed.

Lemma stop_timer_accumulates_witness :
  let d := [("2024-01-08", Day [("coding", 3600%Q)]);
            ("active", Session "coding" 10000%Q)] in
  let w := World (fs_write DB_PATH (Json d) (fun _ => None)) [] [] in
  let now := Datetime 2024 1 8 12 0 0 0 in
  exists d',
    ledger_of (snd (stop_timer (fun _ => None) 11800%Q now now w)) = Some d'
    /\ Dict.get "active" d' = None
    /\ seconds_at d' "2024-01-08" "coding" = Some (3600 + (11800 - 10000))%Q
    /\ (forall date_str cat,
          date_str <> "2024-01-08" \/ cat <> "coding" ->
          seconds_at d' date_str cat = seconds_at d date_str cat).
Proof.
  intros d w now.
  apply (stop_timer_accumulates (fun _ => None) 11800%Q now now w d
           "coding" 10000%Q).
  - reflexivity.
  - split.
    + repeat constructor; simpl; intuition discriminate.
    + repeat constructor; simpl; intuition discriminate.
  - reflexivity.
Defined.

(** ** The aggregation loop *)

Lemma Q0_plus (q : Q) : (0 + q)%Q = q.
Proof.
  destruct q as [n p]. unfold Qplus. simpl. now rewrite Z.mul_1_r.
Qed.

Lemma set_absent {V} k (v : V) d :
  Dict.get k d = None -> Dict.set k v d = (d ++ [(k, v)])%list.
Proof.
  induction d as [|[k0 v0] r IH]; simpl; [reflexivity|].
  destruct (String.eqb k0 k); [discriminate|].
  intros G. now rewrite IH.
Qed.

Lemma set_set_same {V} k (v v0 : V) d :
  Dict.set k v (Dict.set k v0 d) = Dict.set k v d.
Proof.
  induction d as [|[k0 v1] r IH]; simpl.
  - now rewrite String.eqb_refl.
  - destruct (String.eqb k0 k) eqn:E; simpl; rewrite E; [reflexivity|].
    now rewrite IH.
Qed.

Lemma get_app_absent {V} k (d e : Dict.t V) :
  Dict.get k d = None -> Dict.get k (d ++ e)%list = Dict.get k e.
Proof.
  induction d as [|[k0 v0] r IH]; simpl; [reflexivity|].
  destruct (String.eqb k0 k); [discriminate|exact IH].
Qed.

Lemma add_item_eq date_str totals daily_logs item :
  add_item date_str (totals, daily_logs) item
  = (accumulate1 totals item,
     Dict.set date_str
       (accumulate1 (Dict.get_default date_str [] daily_logs) item)
       daily_logs).
Proof.
  destruct item as [cat secs]. unfold add_item, accumulate1. simpl. f_equal.
  unfold Dict.mem, Dict.get_default.
  destruct (Dict.get date_str daily_logs) as [day_log|] eqn:G; simpl.
  - now rewrite G.
  - rewrite DictFacts.get_set_same. apply set_set_same.
Qed.

Lemma fold_add_item date_str data totals daily_logs :
  fold_left (add_item date_str) data (totals, daily_logs)
  = (fold_left accumulate1 data totals,
     if nonempty data
     then Dict.set date_str
            (fold_left accumulate1 data (Dict.get_default date_str [] daily_logs))
            daily_logs
     else daily_logs).
Proof.
  revert totals daily_logs.
  induction data as [|item r IH]; intros totals daily_logs; [reflexivity|].
  cbn [fold_left nonempty]. rewrite add_item_eq, IH. f_equal.
  destruct r as [|item' r']; [reflexivity|]. cbn [nonempty].
  unfold Dict.get_default at 1. rewrite DictFacts.get_set_same.
  apply set_set_same.
Qed.

(** entries of a day with distinct categories, added to a dictionary that
    has none of them: they are appended as they are *)
Lemma fold_accumulate_fresh data acc :
  Dict.wf data ->
  (forall k, In k (Dict.keys data) -> ~ In k (Dict.keys acc)) ->
  fold_left accumulate1 data acc = (acc ++ data)%list.
Proof.
  unfold Dict.wf. revert acc.
  induction data as [|[cat secs] r IH]; intros acc ND FR; cbn [fold_left].
  - now rewrite app_nil_r.
  - inversion ND as [|? ? NI ND']; subst.
    assert (G : Dict.get cat acc = None).
    { apply DictFacts.get_None_keys. apply FR. now left. }
    change (accumulate1 acc (cat, secs))
      with (Dict.set cat (Dict.get_default cat 0 acc + secs)%Q acc).
    unfold Dict.get_default.
    rewrite G, Q0_plus, (set_absent _ _ _ G).
    rewrite IH; [now rewrite <- app_assoc|assumption|].
    intros k I. unfold Dict.keys. rewrite map_app, in_app_iff. simpl.
    intros [I'|[<-|[]]].
    + apply (FR k); [now right|exact I'].
    + now apply NI.
Qed.

Lemma aggregate_window_days start end_ its acc :
  Forall entry_ok its ->
  aggregate start end_ its acc
  = Return (fold_left (fun a kd => fold_left (add_item (fst kd)) (snd kd) a)
                      (window_days start end_ its) acc).
Proof.
  intros F. revert acc.
  induction F as [|[k v] r E F IH]; intros acc; [reflexivity|].
  unfold window_days in *. cbn [aggregate flat_map].
  unfold passes at 1. cbn [fst snd].
  destruct (String.eqb_spec k "active") as [->|N]; cbn [negb andb].
  - rewrite IH. now destruct v.
  - destruct v as [c s|data]; [now destruct E|].
    destruct (strptime_Ymd k) as [o|]; [|now rewrite IH].
    destruct (in_window start o end_); cbn [negb]; now rewrite IH.
Qed.

Lemma window_days_keys start end_ d k data :
  In (k, data) (window_days start end_ d) ->
  In (k, Day data) d /\ passes start end_ (k, Day data) = true.
Proof.
  unfold window_days. rewrite in_flat_map.
  intros [[k0 v] [I H]]. cbn [fst snd] in H.
  destruct v as [c s|data0]; [destruct H|].
  destruct (passes start end_ (k0, Day data0)) eqn:P; [|destruct H].
  destruct H as [[= -> ->]|[]]. now split.
Qed.

Lemma In_window_days start end_ d k data :
  In (k, Day data) d -> passes start end_ (k, Day data) = true ->
  In (k, data) (window_days start end_ d).
Proof.
  intros I P. unfold window_days. rewrite in_flat_map.
  exists (k, Day data). split; [assumption|]. cbn [fst snd].
  rewrite P. now left.
Qed.

Lemma window_days_NoDup start end_ d :
  Dict.wf d -> NoDup (map fst (window_days start end_ d)).
Proof.
  unfold Dict.wf, Dict.keys.
  induction d as [|[k v] r IH]; simpl; [constructor|].
  intros ND. inversion ND as [|? ? NI ND']; subst.
  assert (H : forall x, In x (map fst (window_days start end_ r)) -> In x (map fst r)).
  { intros x. rewrite !in_map_iff. intros [[k0 data] [<- I]].
    apply window_days_keys in I. destruct I as [I _].
    now exists (k0, Day data). }
  destruct v as [c s|data]; [now apply IH|].
  destruct (passes start end_ (k, Day data)); simpl; [|now apply IH].
  constructor; [|now apply IH].
  intros I. apply NI. now apply H.
Qed.

Lemma fold_days days totals daily_logs :
  NoDup (map fst days) ->
  Forall (fun kd => Dict.wf (snd kd)) days ->
  (forall k, In k (map fst days) -> ~ In k (Dict.keys daily_logs)) ->
  fold_left (fun a kd => fold_left (add_item (fst kd)) (snd kd) a)
            days (totals, daily_logs)
  = (fold_left accumulate1 (flat_map snd days) totals,
     (daily_logs ++ filter (fun kd => nonempty (snd kd)) days)%list).
Proof.
  revert totals daily_logs.
  induction days as [|[k data] r IH]; intros totals daily_logs ND W FR.
  - simpl. now rewrite app_nil_r.
  - inversion ND as [|? ? NI ND']; subst.
    inversion W as [|? ? Wd W']; subst. cbn [fst snd] in *.
    cbn [fold_left flat_map filter fst snd].
    rewrite fold_add_item, fold_left_app.
    assert (G : Dict.get k daily_logs = None).
    { apply DictFacts.get_None_keys. apply FR. now left. }
    destruct data as [|item data']; cbn [nonempty].
    + apply IH; try assumption.
      intros k' I. apply FR. now right.
    + unfold Dict.get_default. rewrite G.
      rewrite (fold_accumulate_fresh (item :: data') []);
        [|assumption|intros ? _ I; exact I].
      rewrite (set_absent _ _ _ G). cbn [app].
      rewrite IH; try assumption.
      * now rewrite <- app_assoc.
      * intros k' I. unfold Dict.keys. rewrite map_app, in_app_iff.
        simpl. intros [I'|[<-|[]]].
        -- apply (FR k'); [now right|exact I'].
        -- now apply NI.
Qed.

(** On a ledger of the persisted layout the loop raises nothing;
    [daily_logs] is the list of the days that pass and have an entry, each
    with its entries as the ledger has them, and [totals] is the
    accumulation of all their entries. *)
Lemma aggregate_layout start end_ d :
  layout_ok d ->
  aggregate start end_ (Dict.items d) ([], [])
  = Return (fold_left accumulate1 (window_entries start end_ d) [],
            filter (fun kd => nonempty (snd kd)) (window_days start end_ d)).
Proof.
  intros [W F]. unfold Dict.items.
  rewrite aggregate_window_days by assumption.
  rewrite fold_days;
    [reflexivity|now apply window_days_NoDup| |intros ? _ I; exact I].
  apply Forall_forall. intros [k data] I. cbn [snd].
  apply window_days_keys in I. destruct I as [I _].
  rewrite Forall_forall in F. specialize (F _ I). now destruct F.
Qed.

(** ** The report *)

Lemma aggregate_nothing start end_ its acc :
  Forall (fun kv => passes start end_ kv = true -> snd kv = Day []) its ->
  aggregate start end_ its acc = Return acc.
Proof.
  intros F. revert acc.
  induction F as [|[k v] r E F IH]; intros acc; [reflexivity|].
  cbn [aggregate]. unfold passes in E. cbn [fst snd] in E.
  destruct (String.eqb k "active"); [apply IH|].
  destruct (strptime_Ymd k) as [o|]; [|apply IH].
  destruct (in_window start o end_); cbn [negb]; [|apply IH].
  rewrite (E eq_refl). apply IH.
Qed.

(** C8. When no day of the ledger that passes the window test has an
    entry, [generate_report] prints that there is no data and returns: the
    chart, the summary and the readme are not written, and every file is as
    it was. *)
Theorem generate_report_empty_window (now start : datetime) (w : world) (d : db) :
  ledger_of w = Some d ->
  sub_days now 7 = Some start ->
  Forall (fun kv => passes start now kv = true -> snd kv = Day []) d ->
  let w' := says "[-] No data to generate report." w in
  aggregate start now (Dict.items d) ([], []) = Return ([], [])
  /\ generate_report now w = (Return tt, w')
  /\ files w' = files w
  /\ commands w' = commands w.
Proof.
  intros L S F. cbn zeta.
  assert (A : aggregate start now (Dict.items d) ([], []) = Return ([], []))
    by now apply aggregate_nothing.
  repeat split; [exact A|].
  unfold generate_report, bind. rewrite (load_db_ledger _ _ L), S, A.
  reflexivity.
Qed.

Lemma generate_report_empty_window_witness :
  let d := [("2023-12-25", Day [("coding", 3600%Q)]);
            ("active", Session "coding" 10000%Q)] in
  let w := World (fs_write README_PATH (Text "old")
                    (fs_write DB_PATH (Json d) (fun _ => None))) [] [] in
  generate_report (Datetime 2024 1 8 12 0 0 0) w
  = (Return tt, says "[-] No data to generate report." w).
Proof.
  intros d w.
  apply (generate_report_empty_window (Datetime 2024 1 8 12 0 0 0)
           (Datetime 2024 1 1 12 0 0 0) w d).
  - reflexivity.
  - reflexivity.
  - repeat constructor; simpl; discriminate.
Defined.

(** ** Sorting *)
Section Sorting.
Context {A : Type} (le : A -> A -> bool).
Hypothesis le_total : forall x y, le x y = true \/ le y x = true.
Hypothesis le_trans : forall x y z, le x y = true -> le y z = true -> le x z = true.

Lemma insert_perm x l : Permutation (insert le x l) (x :: l).
Proof.
  induction l as [|y r IH]; simpl; [reflexivity|].
  destruct (le x y); [reflexivity|].
  rewrite IH. apply perm_swap.
Qed.

Lemma sorted_perm l : Permutation (sorted le l) l.
Proof.
  induction l as [|x r IH]; simpl; [reflexivity|].
  rewrite insert_perm. now constructor.
Qed.

Lemma insert_sorted x l :
  Sorted (fun a b => le a b = true) l ->
  Sorted (fun a b => le a b = true) (insert le x l).
Proof.
  induction 1 as [|y r S IH H]; simpl; [repeat constructor|].
  destruct (le x y) eqn:E.
  - repeat constructor; assumption.
  - constructor; [exact IH|].
    assert (Eyx : le y x = true) by (destruct (le_total x y); congruence).
    destruct r as [|z r']; simpl; [now constructor|].
    destruct (le x z); constructor; [assumption|].
    now inversion H.
Qed.

Lemma sorted_Sorted l : Sorted (fun a b => le a b = true) (sorted le l).
Proof.
  induction l as [|x r IH]; simpl; [constructor|].
  now apply insert_sorted.
Qed.

Lemma sorted_StronglySorted l :
  StronglySorted (fun a b => le a b = true) (sorted le l).
Proof.
  apply Sorted_StronglySorted; [|apply sorted_Sorted].
  intros x y z. apply le_trans.
Qed.
End Sorting.

Lemma by_neg_hours_total x y :
  by_neg_hours x y = true \/ by_neg_hours y x = true.
Proof.
  unfold by_neg_hours. rewrite !Qle_bool_iff.
  destruct (Qlt_le_dec (- snd x) (- snd y)) as [H|H]; [left|right]; auto.
  now apply Qlt_le_weak.
Qed.

Lemma by_neg_hours_trans x y z :
  by_neg_hours x y = true -> by_neg_hours y z = true -> by_neg_hours x z = true.
Proof.
  unfold by_neg_hours. rewrite !Qle_bool_iff. apply Qle_trans.
Qed.

Lemma by_neg_hours_ge x y : by_neg_hours x y = true <-> (snd y <= snd x)%Q.
Proof.
  unfold by_neg_hours. rewrite Qle_bool_iff. split; intros H.
  - apply Qopp_le_compat in H. now rewrite !Qopp_involutive in H.
  - now apply Qopp_le_compat.
Qed.

Lemma ascii_compare_N a b :
  Ascii.compare a b = (N_of_ascii a ?= N_of_ascii b)%N.
Proof. reflexivity. Qed.

Lemma string_leb_trans a b c :
  String.leb a b = true -> String.leb b c = true -> String.leb a c = true.
Proof.
  unfold String.leb. revert b c.
  induction a as [|x a IH]; intros [|y b] [|z c]; simpl; try congruence.
  rewrite !ascii_compare_N.
  destruct (N.compare_spec (N_of_ascii x) (N_of_ascii y)) as [E1|L1|G1];
    destruct (N.compare_spec (N_of_ascii y) (N_of_ascii z)) as [E2|L2|G2];
    destruct (N.compare_spec (N_of_ascii x) (N_of_ascii z)) as [E3|L3|G3];
    try congruence; try lia.
  apply IH.
Qed.

Lemma str_ge_total x y : str_ge x y = true \/ str_ge y x = true.
Proof. unfold str_ge. apply String.leb_total. Qed.

Lemma str_ge_trans x y z :
  str_ge x y = true -> str_ge y z = true -> str_ge x z = true.
Proof. unfold str_ge. intros H1 H2. now apply string_leb_trans with y. Qed.

(** ** The calendar *)

Lemma month_day_check :
  forallb (fun n => month_day_ok false (Z.of_nat n)
                    && month_day_ok true (Z.of_nat n)) (seq 0 365) = true.
Proof. vm_compute. reflexivity. Qed.

Lemma month_day_spec leap n :
  0 <= n < 365 ->
  let '(m, d) := month_day leap n in
  1 <= m <= 12
  /\ 1 <= d <= (if (m =? 2) && leap then 29
                else nth (Z.to_nat m) DAYS_IN_MONTH (-1))
  /\ nth (Z.to_nat m) DAYS_BEFORE_MONTH (-1)
     + (if (2 <? m) && leap then 1 else 0) + d = n + 1.
Proof.
  intros H.
  pose proof month_day_check as C. rewrite forallb_forall in C.
  specialize (C (Z.to_nat n)). rewrite in_seq in C.
  rewrite Z2Nat.id in C by lia.
  assert (K : month_day_ok leap n = true).
  { destruct leap; apply andb_prop in C; try tauto; lia. }
  unfold month_day_ok in K. destruct (month_day leap n) as [m d].
  repeat (apply andb_prop in K; destruct K as [K ?]). lia.
Qed.

Lemma days_before_year_succ y :
  days_before_year (y + 1)
  = days_before_year y + 365 + (if is_leap y then 1 else 0).
Proof.
  unfold days_before_year, is_leap.
  replace (y + 1 - 1) with y by lia.
  destruct (Z.eqb_spec (y mod 4) 0), (Z.eqb_spec (y mod 100) 0),
    (Z.eqb_spec (y mod 400) 0); simpl; Z.div_mod_to_equations; lia.
Qed.

Lemma days_before_year_mono y1 y2 :
  y1 <= y2 -> days_before_year y1 + 365 * (y2 - y1) <= days_before_year y2.
Proof.
  unfold days_before_year. intros H. Z.div_mod_to_equations. lia.
Qed.

(** [_ord2ymd] inverts [_ymd2ord] *)
Lemma ord2ymd_spec n :
  1 <= n ->
  let '(y, m, d) := ord2ymd n in
  1 <= y /\ 1 <= m <= 12 /\ 1 <= d <= days_in_month y m /\ ymd2ord y m d = n.
Proof.
  intros Hn. unfold ord2ymd.
  set (n0 := n - 1).
  set (n400 := n0 / DI400Y). set (r400 := n0 mod DI400Y).
  set (n100 := r400 / DI100Y). set (r100 := r400 mod DI100Y).
  set (n4 := r100 / DI4Y). set (r4 := r100 mod DI4Y).
  set (n1 := r4 / 365). set (r1 := r4 mod 365).
  assert (B : 0 <= n400 /\ 0 <= n100 <= 4 /\ 0 <= n4 <= 24 /\ 0 <= n1 <= 4
              /\ 0 <= r1 < 365
              /\ n = 146097 * n400 + 36524 * n100 + 1461 * n4 + 365 * n1 + r1 + 1
              /\ 365 * n1 + r1 < 1461
              /\ 1461 * n4 + 365 * n1 + r1 < 36524
              /\ 36524 * n100 + 1461 * n4 + 365 * n1 + r1 < 146097).
  { unfold n400, n100, n4, n1, r1, r4, r100, r400, n0, DI400Y, DI100Y, DI4Y in *.
    Z.div_mod_to_equations. lia. }
  clearbody n400 n100 n4 n1 r1. clear r4 r100 r400.
  destruct B as (B400 & B100 & B4 & B1 & Br & E & F1 & F2 & F3).
  set (y := n400 * 400 + 1 + n100 * 100 + n4 * 4 + n1).
  destruct ((n1 =? 4) || (n100 =? 4)) eqn:Sp.
  - assert (r1 = 0) by lia.
    assert (Y : days_before_year y = n).
    { unfold days_before_year, y. Z.div_mod_to_equations. lia. }
    assert (L : days_before_year y
                = days_before_year (y - 1) + 365
                  + (if is_leap (y - 1) then 1 else 0)).
    { rewrite <- days_before_year_succ. f_equal. lia. }
    unfold ymd2ord, days_before_month, days_in_month. simpl nth.
    change (2 <? 12) with true. change (12 =? 2) with false.
    cbn [andb]. repeat split; lia.
  - assert (n1 <= 3 /\ n100 <= 3) as [? ?] by lia.
    assert (Y : days_before_year y
                = 146097 * n400 + 36524 * n100 + 1461 * n4 + 365 * n1).
    { unfold days_before_year, y. Z.div_mod_to_equations. lia. }
    assert (LY : is_leap y = ((n1 =? 3) && (negb (n4 =? 24) || (n100 =? 3)))).
    { unfold is_leap. fold y.
      destruct (Z.eqb_spec n1 3), (Z.eqb_spec n4 24), (Z.eqb_spec n100 3),
        (Z.eqb_spec (y mod 4) 0), (Z.eqb_spec (y mod 100) 0),
        (Z.eqb_spec (y mod 400) 0); simpl; try reflexivity;
        exfalso; unfold y in *; Z.div_mod_to_equations; lia. }
    rewrite <- LY.
    pose proof (month_day_spec (is_leap y) r1 Br) as MD.
    destruct (month_day (is_leap y) r1) as [m d].
    unfold ymd2ord, days_before_month, days_in_month. lia.
Qed.

Ltac eval_tables :=
  repeat match goal with
         | |- context [nth (Z.to_nat ?k) ?t ?d] =>
             let v := eval vm_compute in (nth (Z.to_nat k) t d) in
             change (nth (Z.to_nat k) t d) with v
         | H : context [nth (Z.to_nat ?k) ?t ?d] |- _ =>
             let v := eval vm_compute in (nth (Z.to_nat k) t d) in
             change (nth (Z.to_nat k) t d) with v in H
         | |- context [if ?b then _ else _] =>
             let v := eval vm_compute in b in
             match v with
             | true => change b with true
             | false => change b with false
             end; cbv iota
         | H : context [if ?b then _ else _] |- _ =>
             let v := eval vm_compute in b in
             match v with
             | true => change b with true in H
             | false => change b with false in H
             end; cbv iota in H
         end.

Ltac month_split m :=
  let H := fresh "Hm" in
  assert (H : m = 1 \/ m = 2 \/ m = 3 \/ m = 4 \/ m = 5 \/ m = 6 \/ m = 7
              \/ m = 8 \/ m = 9 \/ m = 10 \/ m = 11 \/ m = 12) by lia;
  repeat (destruct H as [H|H]); subst m.

Lemma valid_date_bounds y m d :
  valid_date y m d = true <->
  1 <= y <= 9999 /\ 1 <= m <= 12 /\ 1 <= d <= days_in_month y m.
Proof.
  unfold valid_date, MINYEAR, MAXYEAR.
  rewrite !andb_true_iff, !Z.leb_le. lia.
Qed.

Lemma day_of_year_bounds y m d :
  1 <= m <= 12 -> 1 <= d <= days_in_month y m ->
  1 <= days_before_month y m + d <= 365 + (if is_leap y then 1 else 0).
Proof.
  unfold days_in_month, days_before_month. intros Hm Hd.
  destruct (is_leap y); month_split m; eval_tables; lia.
Qed.

Lemma day_of_year_lt y m1 d1 m2 d2 :
  1 <= m1 -> m1 < m2 <= 12 -> d1 <= days_in_month y m1 -> 1 <= d2 ->
  days_before_month y m1 + d1 < days_before_month y m2 + d2.
Proof.
  unfold days_in_month, days_before_month. intros H1 H2 Hd1 Hd2.
  assert (M1 : 1 <= m1 <= 12) by lia. assert (M2 : 1 <= m2 <= 12) by lia.
  destruct (is_leap y); month_split m1; month_split m2; try lia;
    eval_tables; lia.
Qed.

(** the ordinal grows with the date *)
Lemma ymd2ord_lt y1 m1 d1 y2 m2 d2 :
  valid_date y1 m1 d1 = true -> valid_date y2 m2 d2 = true ->
  ymd_lt y1 m1 d1 y2 m2 d2 -> ymd2ord y1 m1 d1 < ymd2ord y2 m2 d2.
Proof.
  rewrite !valid_date_bounds. intros (Y1 & M1 & D1) (Y2 & M2 & D2) L.
  unfold ymd2ord.
  pose proof (day_of_year_bounds y1 m1 d1 M1 D1) as B1.
  pose proof (day_of_year_bounds y2 m2 d2 M2 D2) as B2.
  destruct L as [L|[-> [L|[-> L]]]].
  - pose proof (days_before_year_succ y1) as S.
    pose proof (days_before_year_mono (y1 + 1) y2) as Mo. lia.
  - pose proof (day_of_year_lt y2 m1 d1 m2 d2). lia.
  - lia.
Qed.

Lemma ymd_trichotomy y1 m1 d1 y2 m2 d2 :
  ymd_lt y1 m1 d1 y2 m2 d2
  \/ (y1 = y2 /\ m1 = m2 /\ d1 = d2)
  \/ ymd_lt y2 m2 d2 y1 m1 d1.
Proof. unfold ymd_lt. lia. Qed.

(** the order of the field tuples is the order of the time line *)
Lemma dt_le_micros a b :
  valid_datetime a = true -> valid_datetime b = true ->
  dt_le a b = true <-> dt_micros a <= dt_micros b.
Proof.
  unfold valid_datetime. rewrite !andb_true_iff, !Z.leb_le, !Z.ltb_lt.
  intros Va Vb.
  destruct Va as ((((((((Da & ?) & ?) & ?) & ?) & ?) & ?) & ?) & ?).
  destruct Vb as ((((((((Db & ?) & ?) & ?) & ?) & ?) & ?) & ?) & ?).
  pose proof (ymd2ord_lt _ _ _ _ _ _ Da Db) as Lab.
  pose proof (ymd2ord_lt _ _ _ _ _ _ Db Da) as Lba.
  unfold dt_le, fields, lex_le, dt_micros, toordinal.
  rewrite !orb_true_iff, !andb_true_iff, !Z.ltb_lt, !Z.eqb_eq.
  destruct a as [y1 m1 d1 h1 mi1 s1 u1], b as [y2 m2 d2 h2 mi2 s2 u2].
  cbn [year month day hour minute second microsecond] in *.
  destruct (ymd_trichotomy y1 m1 d1 y2 m2 d2) as [L|[(-> & -> & ->)|L]].
  - specialize (Lab L). unfold ymd_lt in L. split; [intros _; lia|].
    intros _. lia.
  - clear Lab Lba. split; intros; lia.
  - specialize (Lba L). unfold ymd_lt in L. split; [|intros; lia].
    intros Hle. exfalso. lia.
Qed.

Lemma ord2ymd_valid n :
  1 <= n <= MAXORDINAL ->
  let '(y, m, d) := ord2ymd n in
  valid_date y m d = true /\ ymd2ord y m d = n.
Proof.
  intros [H1 H2]. pose proof (ord2ymd_spec n H1) as S.
  destruct (ord2ymd n) as [[y m] d]. destruct S as (Y & M & D & E).
  split; [|exact E]. apply valid_date_bounds.
  repeat split; try lia.
  destruct (Z_le_gt_dec y 9999) as [L|G]; [exact L|exfalso].
  pose proof (days_before_year_mono 10000 y) as Mo.
  pose proof (day_of_year_bounds y m d M D) as B.
  unfold ymd2ord in E. unfold MAXORDINAL in H2.
  change (days_before_year 10000) with 3652059 in Mo. lia.
Qed.

(** [now - timedelta(days=n)] is a datetime, [n] days back on the time
    line *)
Lemma sub_days_spec now n start :
  valid_datetime now = true ->
  sub_days now n = Some start ->
  valid_datetime start = true
  /\ toordinal start = toordinal now - n
  /\ time_of_day start = time_of_day now
  /\ dt_micros start = dt_micros now - n * 86400 * 1000000.
Proof.
  unfold sub_days. intros V.
  destruct ((0 <? toordinal now - n) && (toordinal now - n <=? MAXORDINAL))
    eqn:R; [|discriminate].
  apply andb_prop in R. destruct R as [R1 R2].
  apply Z.ltb_lt in R1. apply Z.leb_le in R2.
  pose proof (ord2ymd_valid (toordinal now - n)) as O.
  destruct (ord2ymd (toordinal now - n)) as [[y m] d].
  destruct O as [Vd E]; [lia|].
  intros [= <-].
  unfold valid_datetime in V |- *. unfold time_of_day, dt_micros, toordinal.
  cbn [year month day hour minute second microsecond].
  rewrite Vd, E.
  rewrite !andb_true_iff, !Z.leb_le, !Z.ltb_lt in V.
  destruct V as ((((((((Dn & ?) & ?) & ?) & ?) & ?) & ?) & ?) & ?).
  set (secs := hour now * 3600 + minute now * 60 + second now).
  assert (Hh : secs / 3600 = hour now)
    by (unfold secs; Z.div_mod_to_equations; lia).
  assert (Hm : secs mod 3600 / 60 = minute now)
    by (unfold secs; Z.div_mod_to_equations; lia).
  assert (Hs : secs mod 3600 mod 60 = second now)
    by (unfold secs; Z.div_mod_to_equations; lia).
  rewrite Hh, Hm, Hs. unfold toordinal.
  repeat split; lia.
Qed.

(** ** The window *)

Lemma strptime_midnight k o :
  strptime_Ymd k = Some o ->
  valid_datetime o = true /\ time_of_day o = 0
  /\ dt_micros o = toordinal o * 86400 * 1000000.
Proof.
  unfold strptime_Ymd.
  destruct (match_Ymd k) as [[[[y m] d] [|c r]]|]; try discriminate.
  destruct (valid_date y m d) eqn:V; [|discriminate].
  intros [= <-]. unfold valid_datetime, time_of_day, dt_micros, toordinal.
  cbn [year month day hour minute second microsecond].
  rewrite V. repeat split; lia.
Qed.

Lemma micros_split dt :
  dt_micros dt = toordinal dt * 86400 * 1000000 + time_of_day dt.
Proof. unfold dt_micros, time_of_day. lia. Qed.

Lemma time_of_day_bounds dt :
  valid_datetime dt = true -> 0 <= time_of_day dt < 86400 * 1000000.
Proof.
  unfold valid_datetime, time_of_day.
  rewrite !andb_true_iff, !Z.leb_le, !Z.ltb_lt. lia.
Qed.

(** the window test, on the time line *)
Lemma in_window_micros now start o :
  valid_datetime now = true -> valid_datetime o = true ->
  sub_days now 7 = Some start ->
  in_window start o now = true
  <-> dt_micros now - WEEK <= dt_micros o <= dt_micros now.
Proof.
  intros Vn Vo S.
  destruct (sub_days_spec now 7 start Vn S) as (Vs & _ & _ & E).
  unfold in_window. rewrite andb_true_iff.
  rewrite (dt_le_micros start o Vs Vo), (dt_le_micros o now Vo Vn).
  unfold WEEK. lia.
Qed.

Lemma daily_logs_wf start end_ d :
  Dict.wf d ->
  Dict.wf (filter (fun kd => nonempty (snd kd)) (window_days start end_ d)).
Proof.
  intros Wd. unfold Dict.wf, Dict.keys.
  pose proof (window_days_NoDup start end_ d Wd) as ND.
  induction (window_days start end_ d) as [|[k0 d0] r IH]; simpl;
    [constructor|].
  inversion ND as [|? ? NI ND']; subst.
  destruct (nonempty d0); simpl; [|now apply IH].
  constructor; [|now apply IH].
  intros J. apply NI. rewrite in_map_iff in J |- *.
  destruct J as [x [E J]]. exists x. split; [exact E|].
  apply filter_In in J. tauto.
Qed.

(** a day is in [daily_logs] when it passes the tests and has an entry *)
Lemma mem_daily_logs start end_ d k data :
  layout_ok d -> In (k, Day data) d ->
  let daily_logs :=
    filter (fun kd => nonempty (snd kd)) (window_days start end_ d) in
  Dict.wf daily_logs
  /\ (Dict.mem k daily_logs = true
      <-> passes start end_ (k, Day data) = true /\ data <> [])
  /\ (Dict.mem k daily_logs = true -> Dict.get k daily_logs = Some data).
Proof.
  intros LO I. cbn zeta.
  set (dl := filter (fun kd => nonempty (snd kd)) (window_days start end_ d)).
  assert (W : Dict.wf dl) by apply (daily_logs_wf _ _ _ (proj1 LO)).
  assert (U : forall data', In (k, data') dl ->
                            data' = data /\ passes start end_ (k, Day data) = true
                            /\ data <> []).
  { intros data' J. unfold dl in J. apply filter_In in J.
    destruct J as [J NE]. apply window_days_keys in J. destruct J as [J P].
    pose proof (DictFacts.In_get _ _ _ (proj1 LO) J) as G1.
    pose proof (DictFacts.In_get _ _ _ (proj1 LO) I) as G2.
    assert (data' = data) by congruence. subst data'.
    repeat split; [exact P|]. intros ->. discriminate NE. }
  split; [exact W|]. split; [split|].
  - intros Hm. apply DictFacts.mem_get in Hm. destruct Hm as [data' G].
    apply DictFacts.get_In in G. now destruct (U _ G) as (_ & P & NE).
  - intros [P NE]. apply DictFacts.mem_get. exists data.
    apply DictFacts.In_get; [exact W|]. unfold dl. apply filter_In.
    split; [now apply In_window_days|]. cbn [snd]. now destruct data.
  - intros Hm. apply DictFacts.mem_get in Hm. destruct Hm as [data' G].
    pose proof (DictFacts.get_In _ _ _ G) as J.
    destruct (U _ J) as (-> & _). exact G.
Qed.

Lemma accumulate1_keys l acc c :
  In c (Dict.keys (fold_left accumulate1 l acc))
  <-> In c (Dict.keys acc) \/ In c (map fst l).
Proof.
  revert acc. induction l as [|[k x] r IH]; intros acc; simpl.
  - tauto.
  - rewrite IH. unfold accumulate1, accumulate. cbn [fst snd].
    rewrite DictFacts.In_keys_set. intuition.
Qed.

Lemma accumulate1_wf l acc :
  Dict.wf acc -> Dict.wf (fold_left accumulate1 l acc).
Proof.
  revert acc. induction l as [|[k x] r IH]; intros acc W; simpl; [exact W|].
  apply IH. now apply DictFacts.wf_set.
Qed.

Lemma In_window_entries start end_ d k data c :
  In (k, data) (window_days start end_ d) -> In c (Dict.keys data) ->
  In c (map fst (window_entries start end_ d)).
Proof.
  intros I J. unfold window_entries, Dict.keys in *.
  rewrite in_map_iff in J |- *. destruct J as [x [E J]].
  exists x. split; [exact E|]. apply in_flat_map. now exists (k, data).
Qed.




(** ** Date keys as text *)

Lemma all_below_spec f n i z :
  all_below f n i = true -> i <= z < i + Z.of_nat n -> f z = true.
Proof.
  revert i. induction n as [|n IH]; intros i H R; [lia|].
  cbn [all_below] in H. apply andb_prop in H. destruct H as [H0 H].
  destruct (Z.eq_dec z i) as [->|N]; [exact H0|].
  apply (IH (i + 1)); [exact H|lia].
Qed.

Lemma pad4_check :
  all_below (fun n => String.eqb (pad_left 4 (str_of_nat (Z.to_N n))) (digits4 n))
            (Z.to_nat 10000) 0 = true.
Proof. vm_compute. reflexivity. Qed.

Lemma pad2_check :
  all_below (fun n => String.eqb (pad_left 2 (str_of_nat (Z.to_N n))) (digits2 n))
            (Z.to_nat 100) 0 = true.
Proof. vm_compute. reflexivity. Qed.

Lemma pad4_digits n :
  0 <= n < 10000 -> pad_left 4 (str_of_nat (Z.to_N n)) = digits4 n.
Proof.
  intros H. apply String.eqb_eq.
  apply (all_below_spec _ _ _ n pad4_check). lia.
Qed.

Lemma pad2_digits n :
  0 <= n < 100 -> pad_left 2 (str_of_nat (Z.to_N n)) = digits2 n.
Proof.
  intros H. apply String.eqb_eq.
  apply (all_below_spec _ _ _ n pad2_check). lia.
Qed.

Lemma days_in_month_le_31 y m : 1 <= m <= 12 -> days_in_month y m <= 31.
Proof.
  intros H. unfold days_in_month.
  destruct ((m =? 2) && is_leap y); [lia|].
  month_split m; eval_tables; lia.
Qed.

Lemma strftime_digits y m d :
  valid_date y m d = true ->
  strftime_Ymd (Datetime y m d 0 0 0 0)
  = digits4 y ++ "-" ++ digits2 m ++ "-" ++ digits2 d.
Proof.
  rewrite valid_date_bounds. intros (Y & M & D).
  pose proof (days_in_month_le_31 y m M).
  unfold strftime_Ymd. cbn [year month day].
  now rewrite pad4_digits, !pad2_digits by lia.
Qed.

Lemma dig_compare a b :
  0 <= a <= 9 -> 0 <= b <= 9 -> Ascii.compare (dig a) (dig b) = (a ?= b).
Proof.
  intros Ha Hb. rewrite ascii_compare_N. unfold dig, ascii_of_nat.
  rewrite !N_ascii_embedding by lia.
  destruct (N.compare_spec (N.of_nat (48 + Z.to_nat a))
                           (N.of_nat (48 + Z.to_nat b)));
    destruct (Z.compare_spec a b); try reflexivity; lia.
Qed.

Lemma compare_dig_cons a b s t :
  0 <= a <= 9 -> 0 <= b <= 9 ->
  String.compare (String (dig a) s) (String (dig b) t)
  = match a ?= b with
    | Eq => String.compare s t
    | c => c
    end.
Proof. intros Ha Hb. cbn [String.compare]. now rewrite dig_compare. Qed.

Lemma compare_same_head c s t :
  String.compare (String c s) (String c t) = String.compare s t.
Proof.
  cbn [String.compare]. rewrite ascii_compare_N. now rewrite N.compare_refl.
Qed.

(** Between two date keys in the form [strftime] writes, the order of the
    strings is the order of the days. *)
Lemma canonical_order a b :
  canonical a = true -> canonical b = true ->
  String.leb b a = true -> a <> b -> day_number b < day_number a.
Proof.
  unfold canonical, day_number.
  destruct (strptime_Ymd a) as [oa|] eqn:Pa; [|discriminate].
  destruct (strptime_Ymd b) as [ob|] eqn:Pb; [|discriminate].
  rewrite !String.eqb_eq. intros Ea Eb L N.
  unfold strptime_Ymd in Pa, Pb.
  destruct (match_Ymd a) as [[[[y1 m1] d1] [|? ?]]|]; try discriminate.
  destruct (match_Ymd b) as [[[[y2 m2] d2] [|? ?]]|]; try discriminate.
  destruct (valid_date y1 m1 d1) eqn:V1; [|discriminate].
  destruct (valid_date y2 m2 d2) eqn:V2; [|discriminate].
  injection Pa as <-. injection Pb as <-.
  rewrite strftime_digits in Ea, Eb by assumption.
  unfold toordinal. cbn [year month day].
  apply ymd2ord_lt; try assumption.
  subst a b. clear - V1 V2 L N.
  apply valid_date_bounds in V1, V2.
  assert (D : d1 <= 31 /\ d2 <= 31).
  { destruct V1 as (_ & M1 & D1), V2 as (_ & M2 & D2).
    pose proof (days_in_month_le_31 y1 m1 M1).
    pose proof (days_in_month_le_31 y2 m2 M2). lia. }
  unfold String.leb, digits4, digits2 in L.
  unfold digits4, digits2 in N.
  cbn [append] in L, N.
  set (a3 := y1 / 1000) in *. set (a2 := y1 / 100 mod 10) in *.
  set (a1 := y1 mod 100 / 10) in *. set (a0 := y1 mod 100 mod 10) in *.
  set (b3 := y2 / 1000) in *. set (b2 := y2 / 100 mod 10) in *.
  set (b1 := y2 mod 100 / 10) in *. set (b0 := y2 mod 100 mod 10) in *.
  set (p1 := m1 / 10) in *. set (p0 := m1 mod 10) in *.
  set (q1 := m2 / 10) in *. set (q0 := m2 mod 10) in *.
  set (e1 := d1 / 10) in *. set (e0 := d1 mod 10) in *.
  set (f1 := d2 / 10) in *. set (f0 := d2 mod 10) in *.
  assert (F : y1 = 1000 * a3 + 100 * a2 + 10 * a1 + a0
              /\ y2 = 1000 * b3 + 100 * b2 + 10 * b1 + b0
              /\ m1 = 10 * p1 + p0 /\ m2 = 10 * q1 + q0
              /\ d1 = 10 * e1 + e0 /\ d2 = 10 * f1 + f0
              /\ 0 <= a3 <= 9 /\ 0 <= a2 <= 9 /\ 0 <= a1 <= 9 /\ 0 <= a0 <= 9
              /\ 0 <= b3 <= 9 /\ 0 <= b2 <= 9 /\ 0 <= b1 <= 9 /\ 0 <= b0 <= 9
              /\ 0 <= p1 <= 9 /\ 0 <= p0 <= 9 /\ 0 <= q1 <= 9 /\ 0 <= q0 <= 9
              /\ 0 <= e1 <= 9 /\ 0 <= e0 <= 9 /\ 0 <= f1 <= 9 /\ 0 <= f0 <= 9).
  { unfold a3, a2, a1, a0, b3, b2, b1, b0, p1, p0, q1, q0, e1, e0, f1, f0.
    Z.div_mod_to_equations. lia. }
  clearbody a3 a2 a1 a0 b3 b2 b1 b0 p1 p0 q1 q0 e1 e0 f1 f0.
  destruct F as (-> & -> & -> & -> & -> & -> & F).
  clear V1 V2 D.
  do 3 rewrite !compare_dig_cons, ?compare_same_head in L by lia.
  unfold ymd_lt.
  destruct (Z.compare_spec b3 a3); [subst|lia|discriminate].
  destruct (Z.compare_spec b2 a2); [subst|lia|discriminate].
  destruct (Z.compare_spec b1 a1); [subst|lia|discriminate].
  destruct (Z.compare_spec b0 a0); [subst|lia|discriminate].
  destruct (Z.compare_spec q1 p1); [subst|lia|discriminate].
  destruct (Z.compare_spec q0 p0); [subst|lia|discriminate].
  destruct (Z.compare_spec f1 e1); [subst|lia|discriminate].
  destruct (Z.compare_spec f0 e0); [subst|lia|discriminate].
  now destruct N.
Qed.

(** ** The order of the report *)

Lemma StronglySorted_impl {A} (R R' : A -> A -> Prop) l :
  (forall a b, R a b -> R' a b) -> StronglySorted R l -> StronglySorted R' l.
Proof.
  intros H. induction 1 as [|a r S IH F]; constructor; [exact IH|].
  revert F. apply Forall_impl. intros b. apply H.
Qed.

Lemma canonical_days_sorted l :
  NoDup l ->
  StronglySorted (fun a b => String.leb b a = true) l ->
  StronglySorted (fun a b => day_number b < day_number a) (filter canonical l).
Proof.
  intros ND S. induction S as [|a r S IH F]; simpl; [constructor|].
  inversion ND as [|? ? NI ND']; subst.
  destruct (canonical a) eqn:Ca; [|now apply IH].
  constructor; [now apply IH|].
  apply Forall_forall. intros b I. apply filter_In in I.
  destruct I as [I Cb]. rewrite Forall_forall in F.
  apply canonical_order; try assumption; [now apply F|].
  intros ->. now apply NI.
Qed.

Lemma hours_keys totals : map fst (hours totals) = Dict.keys totals.
Proof. unfold hours, Dict.keys. rewrite map_map. reflexivity. Qed.




(** what [generate_report] writes when there is something to report *)
Lemma generate_report_writes now start w d t totals daily_logs :
  ledger_of w = Some d ->
  sub_days now 7 = Some start ->
  aggregate start now (Dict.items d) ([], []) = Return (t :: totals, daily_logs) ->
  let hrs := hours (t :: totals) in
  let w' := snd (generate_report now w) in
  fst (generate_report now w) = Return tt
  /\ files w' REPORT_PATH
     = Some (Image "Weekly Grind Breakdown" (Dict.keys hrs) (Dict.values hrs))
  /\ files w' SUMMARY_PATH = Some (Text (summary_content hrs daily_logs))
  /\ files w' README_PATH = Some (Text (summary_content hrs daily_logs))
  /\ files w' DB_PATH = files w DB_PATH.
Proof.
  intros L S A. cbn zeta.
  unfold generate_report, bind. rewrite (load_db_ledger _ _ L), S, A.
  repeat split.
Qed.

(** ** Durations are not negative *)

(** the ledger file after [stop_timer]: as it was, or the ledger of lines
    47-55 *)
Lemma stop_timer_file sh end_time now report_now w :
  files (snd (stop_timer sh end_time now report_now w)) DB_PATH
  = files w DB_PATH
  \/ exists d category s day_log,
       let today := strftime_Ymd now in
       let d1 := Dict.remove "active" d in
       let d2 := if negb (Dict.mem today d1)
                 then Dict.set today (Day []) d1 else d1 in
       ledger_of w = Some d
       /\ Dict.get "active" d = Some (Session category s)
       /\ Dict.get today d2 = Some (Day day_log)
       /\ files (snd (stop_timer sh end_time now report_now w)) DB_PATH
          = Some (Json (Dict.set today
                          (Day (accumulate day_log category (end_time - s)))
                          d2)).
Proof.
  unfold stop_timer. rewrite snd_bind, load_db_same_world.
  destruct (ledger_of w) as [d|] eqn:L;
    [rewrite (load_db_ledger _ _ L)|rewrite (load_db_corrupt _ L); now left].
  cbn [fst].
  destruct (Dict.mem "active" d); cbn [negb]; [|now left].
  destruct (Dict.get "active" d) as [[category s|data]|] eqn:A;
    try (now left).
  set (today := strftime_Ymd now).
  set (d1 := Dict.remove "active" d).
  set (d2 := if negb (Dict.mem today d1) then Dict.set today (Day []) d1 else d1).
  destruct (Dict.get today d2) as [[c' s'|day_log]|] eqn:G; try (now left).
  right. exists d, category, s, day_log. cbn zeta. fold today d1 d2.
  repeat split; try assumption.
  rewrite !snd_bind. rewrite save_db_world. cbn [fst snd].
  unfold print at 1. cbn [fst snd].
  match goal with
  | |- context [generate_report report_now ?w0] =>
      pose proof (generate_report_other_files report_now w0 DB_PATH) as GR;
      destruct (generate_report report_now w0) as [[[]|e] w1]
  end; cbn [fst snd] in *.
  - rewrite git_commit_push_files. rewrite GR by discriminate. reflexivity.
  - rewrite GR by discriminate. reflexivity.
Qed.

Lemma nonneg_get d k data :
  nonneg_db d -> Dict.get k d = Some (Day data) -> nonneg_day data.
Proof.
  intros N G. apply DictFacts.get_In in G.
  unfold nonneg_db in N. rewrite Forall_forall in N. exact (N _ G).
Qed.

Lemma nonneg_set d k v :
  nonneg_db d -> nonneg_value v -> nonneg_db (Dict.set k v d).
Proof.
  unfold nonneg_db. rewrite !Forall_forall. intros N V x I.
  apply DictFacts.In_set in I. destruct I as [->|I]; [exact V|now apply N].
Qed.

Lemma nonneg_remove d k : nonneg_db d -> nonneg_db (Dict.remove k d).
Proof.
  unfold nonneg_db. rewrite !Forall_forall. intros N x I.
  apply N. now apply DictFacts.In_remove with k.
Qed.

Lemma nonneg_accumulate data k x :
  nonneg_day data -> (0 <= x)%Q -> nonneg_day (accumulate data k x).
Proof.
  unfold nonneg_day, accumulate. rewrite !Forall_forall. intros N X kv I.
  apply DictFacts.In_set in I. destruct I as [->|I]; [|now apply N].
  cbn [snd]. unfold Dict.get_default.
  destruct (Dict.get k data) as [v|] eqn:G; [|lra].
  apply DictFacts.get_In in G. specialize (N _ G). cbn [snd] in N. lra.
Qed.

(** the ledger of lines 47-55 keeps durations non-negative when the clock
    has not run backwards *)
Lemma stop_ledger_tracked d category s day_log today end_time t :
  Dict.wf d -> nonneg_db d -> today <> "active" ->
  (s <= end_time)%Q ->
  let d1 := Dict.remove "active" d in
  let d2 := if negb (Dict.mem today d1)
            then Dict.set today (Day []) d1 else d1 in
  Dict.get today d2 = Some (Day day_log) ->
  let d' := Dict.set today
              (Day (accumulate day_log category (end_time - s))) d2 in
  Dict.wf d' /\ nonneg_db d' /\ active_start d' = None
  /\ match active_start d' with
     | Some s' => (s' <= t)%Q
     | None => True
     end.
Proof.
  intros W N NA Le d1 d2 G d'.
  assert (W2 : Dict.wf d2).
  { unfold d2. destruct (negb (Dict.mem today d1));
      [apply DictFacts.wf_set|]; now apply DictFacts.wf_remove. }
  assert (N2 : nonneg_db d2).
  { unfold d2. destruct (negb (Dict.mem today d1));
      [apply nonneg_set; [|constructor]|]; now apply nonneg_remove. }
  assert (A : active_start d' = None).
  { unfold active_start, d'.
    rewrite DictFacts.get_set_other by congruence.
    assert (E : Dict.get "active" d2 = None); [|now rewrite E].
    unfold d2. destruct (negb (Dict.mem today d1)).
    - rewrite DictFacts.get_set_other by congruence.
      now apply DictFacts.get_remove_same.
    - now apply DictFacts.get_remove_same. }
  repeat split.
  - now apply DictFacts.wf_set.
  - apply nonneg_set; [exact N2|]. cbn.
    apply nonneg_accumulate; [now apply nonneg_get with d2 today|lra].
  - exact A.
  - now rewrite A.
Qed.

Lemma tracked_later t t' w : (t <= t')%Q -> tracked t w -> tracked t' w.
Proof.
  unfold tracked. intros Le.
  destruct (files w DB_PATH) as [[]|]; try trivial.
  intros (W & N & A). repeat split; try assumption.
  destruct (active_start d); [lra|trivial].
Qed.

Lemma tracked_nonneg t w : tracked t w -> nonneg_world w.
Proof.
  unfold tracked, nonneg_world.
  destruct (files w DB_PATH) as [[]|]; tauto.
Qed.

(** one run of the program at a clock reading not before [t] *)
Lemma main_tracked e c t w :
  (t <= time_time e)%Q -> tracked t w -> tracked (time_time e) (snd (main e c w)).
Proof.
  intros Le T. apply (tracked_later _ _ _ Le) in T.
  destruct c as [category| | |]; cbn [main].
  - unfold start_timer. rewrite snd_bind, load_db_same_world.
    destruct (ledger_of w) as [d|] eqn:L;
      [rewrite (load_db_ledger _ _ L)|now rewrite (load_db_corrupt _ L)].
    cbn [fst]. destruct (Dict.mem "active" d); [exact T|].
    rewrite snd_bind, save_db_world. cbn [fst snd].
    unfold tracked, print. cbn [snd files]. rewrite fs_write_same.
    assert (Td : Dict.wf d /\ nonneg_db d).
    { unfold tracked in T. unfold ledger_of in L.
      destruct (files w DB_PATH) as [[]|]; try discriminate.
      - injection L as ->. tauto.
      - injection L as <-. split; constructor. }
    destruct Td as [W N]. repeat split.
    + now apply DictFacts.wf_set.
    + apply nonneg_set; [exact N|exact I].
    + unfold active_start. rewrite DictFacts.get_set_same. lra.
  - destruct (stop_timer_file (git e) (time_time e) (datetime_now e)
                (report_time e) w)
      as [E|(d & category & s & day_log & L & A & G & E)];
      unfold tracked in *; rewrite E; [exact T|].
    unfold ledger_of in L.
    destruct (files w DB_PATH) as [[]|]; try discriminate.
    + injection L as ->. destruct T as (W & N & S).
      unfold active_start in S. rewrite A in S.
      destruct (stop_ledger_tracked d category s day_log
                  (strftime_Ymd (datetime_now e)) (time_time e) (time_time e)
                  W N (strftime_not_active _) S G) as (W' & N' & _ & A').
      repeat split; assumption.
    + injection L as <-. discriminate A.
  - unfold tracked in *.
    now rewrite generate_report_other_files by discriminate.
  - exact T.
Qed.

Lemma runs_tracked l t w :
  monotone_from t l -> tracked t w -> exists t', tracked t' (runs l w).
Proof.
  revert t w. induction l as [|[e c] r IH]; intros t w Mo T; cbn [runs].
  - now exists t.
  - destruct Mo as [Le Mo]. apply (IH (time_time e)); [exact Mo|].
    now apply main_tracked with t.
Qed.

Lemma main_nonneg e c w :
  nonneg_world w -> clock_after_start (time_time e) w ->
  nonneg_world (snd (main e c w)).
Proof.
  intros N C. destruct c as [category| | |]; cbn [main].
  - unfold start_timer. rewrite snd_bind, load_db_same_world.
    destruct (ledger_of w) as [d|] eqn:L;
      [rewrite (load_db_ledger _ _ L)|now rewrite (load_db_corrupt _ L)].
    cbn [fst]. destruct (Dict.mem "active" d); [exact N|].
    rewrite snd_bind, save_db_world. cbn [fst snd].
    unfold nonneg_world, print. cbn [snd files]. rewrite fs_write_same.
    apply nonneg_set; [|exact I].
    unfold nonneg_world in N. unfold ledger_of in L.
    destruct (files w DB_PATH) as [[]|]; try discriminate.
    + now injection L as ->.
    + injection L as <-. constructor.
  - destruct (stop_timer_file (git e) (time_time e) (datetime_now e)
                (report_time e) w)
      as [E|(d & category & s & day_log & L & A & G & E)];
      unfold nonneg_world in *; rewrite E; [exact N|].
    unfold clock_after_start, active_start in C. unfold ledger_of in L.
    destruct (files w DB_PATH) as [[]|]; try discriminate;
      [injection L as ->|injection L as <-; discriminate A].
    rewrite A in C.
    assert (N2 : nonneg_db
                   (if negb (Dict.mem (strftime_Ymd (datetime_now e))
                               (Dict.remove "active" d))
                    then Dict.set (strftime_Ymd (datetime_now e)) (Day [])
                           (Dict.remove "active" d)
                    else Dict.remove "active" d)).
    { destruct (negb _); [apply nonneg_set; [|constructor]|];
        now apply nonneg_remove. }
    apply nonneg_set; [exact N2|]. cbn.
    apply nonneg_accumulate; [|lra].
    eapply nonneg_get; [exact N2|exact G].
  - unfold nonneg_world in *.
    now rewrite generate_report_other_files by discriminate.
  - exact N.
Qed.

(** C5, as the code has it. A run of the program keeps every accumulated
    duration of the ledger non-negative provided its reading of the clock is
    not earlier than the start of the session in flight; so the durations
    are non-negative in every state reached from the empty one by runs whose
    clock readings never decrease. *)
Theorem durations_nonneg :
  (forall e c w,
      nonneg_world w -> clock_after_start (time_time e) w ->
      nonneg_world (snd (main e c w)))
  /\ (forall t l, monotone_from t l -> nonneg_world (runs l empty_world)).
Proof.
  split; [exact main_nonneg|].
  intros t l Mo.
  destruct (runs_tracked l t empty_world Mo) as [t' T]; [exact I|].
  now apply tracked_nonneg with t'.
Qed.

Lemma durations_nonneg_witness :
  let now := Datetime 2024 1 8 12 0 0 0 in
  let e1 := Env 100 now now (fun _ => None) in
  let e2 := Env 3761 now now (fun _ => None) in
  nonneg_world (runs [(e1, CmdStart "coding"); (e2, CmdStop)] empty_world).
Proof.
  intros now e1 e2.
  apply (proj2 durations_nonneg 0%Q).
  cbn. repeat split; discriminate.
Defined.

(** C5, as stated, fails: a session started at clock reading 100 and
    stopped at clock reading 40, the clock having been set back, leaves a
    negative duration in the ledger. *)
Lemma clock_set_back :
  let now := Datetime 2024 1 8 12 0 0 0 in
  let e1 := Env 100 now now (fun _ => None) in
  let e2 := Env 40 now now (fun _ => None) in
  let w := runs [(e1, CmdStart "coding"); (e2, CmdStop)] empty_world in
  ledger_of w = Some [("2024-01-08", Day [("coding", (0 + (40 - 100))%Q)])]
  /\ seconds_at [("2024-01-08", Day [("coding", (0 + (40 - 100))%Q)])]
       "2024-01-08" "coding" = Some (-60 # 1)
  /\ ~ nonneg_world w.
Proof.
  cbn zeta. split; [reflexivity|]. split; [reflexivity|].
  intros N. unfold nonneg_world in N. cbn in N.
  inversion N as [|? ? H _]; subst. inversion H as [|? ? H' _]; subst.
  cbn in H'. unfold Qle in H'. cbn in H'. lia.
Qed.

(** * Further properties of the commands *)

(** ** Publishing *)


(** ** What the report touches *)

(** [generate_report] runs no command and writes no file but its three;
    and it writes either none of them or all three, the summary and the
    readme with the same text. *)
Theorem generate_report_frame (now : datetime) (w : world) :
  let w' := snd (generate_report now w) in
  commands w' = commands w
  /\ files w' DB_PATH = files w DB_PATH
  /\ (forall p, p <> REPORT_PATH -> p <> SUMMARY_PATH -> p <> README_PATH ->
                files w' p = files w p)
  /\ (files w' = files w
      \/ exists title labels sizes text,
           fst (generate_report now w) = Return tt
           /\ files w' REPORT_PATH = Some (Image title labels sizes)
           /\ files w' SUMMARY_PATH = Some (Text text)
           /\ files w' README_PATH = Some (Text text)).
Proof.
  cbn zeta. split; [apply generate_report_commands|].
  split; [now apply generate_report_other_files|].
  split; [apply generate_report_other_files|].
  destruct (ledger_of w) as [d|] eqn:L.
  2:{ left. unfold generate_report, bind. now rewrite (load_db_corrupt _ L). }
  destruct (sub_days now 7) as [start|] eqn:S.
  2:{ left. unfold generate_report, bind.
      now rewrite (load_db_ledger _ _ L), S. }
  destruct (aggregate start now (Dict.items d) ([], []))
    as [[[|t totals] dl]|e] eqn:A.
  - left. unfold generate_report, bind.
    now rewrite (load_db_ledger _ _ L), S, A.
  - right.
    destruct (generate_report_writes now start w d t totals dl L S A)
      as (R & F1 & F2 & F3 & _).
    do 4 eexists. repeat split; eassumption.
  - left. unfold generate_report, bind.
    now rewrite (load_db_ledger _ _ L), S, A.
Qed.

(** Generating the report twice in a row, at the same reading of the
    clock, leaves every file as the first run left it and ends the same
    way. *)
Theorem generate_report_idempotent (now : datetime) (w : world) :
  let w1 := snd (generate_report now w) in
  let w2 := snd (generate_report now w1) in
  fst (generate_report now w1) = fst (generate_report now w)
  /\ forall p, files w2 p = files w1 p.
Proof.
  cbn zeta.
  assert (L1 : ledger_of (snd (generate_report now w)) = ledger_of w).
  { unfold ledger_of. now rewrite generate_report_other_files by discriminate. }
  destruct (ledger_of w) as [d|] eqn:L.
  - unfold generate_report at 1 3 4. unfold bind.
    rewrite (load_db_ledger _ _ L1).
    unfold generate_report, bind. rewrite (load_db_ledger _ _ L).
    destruct (sub_days now 7) as [start|]; [|split; reflexivity].
    destruct (aggregate start now (Dict.items d) ([], [])) as [[totals dl]|e];
      [|split; reflexivity].
    destruct totals as [|t totals]; [split; reflexivity|].
    cbn. split; [reflexivity|].
    intros p. unfold fs_write.
    destruct (String.eqb p README_PATH); [reflexivity|].
    destruct (String.eqb p SUMMARY_PATH); [reflexivity|].
    destruct (String.eqb p REPORT_PATH); reflexivity.
  - unfold generate_report at 1 3 4. unfold bind.
    rewrite (load_db_corrupt _ L1).
    unfold generate_report, bind. rewrite (load_db_corrupt _ L).
    split; reflexivity.
Qed.

(** ** The date key of a day *)

Ltac digit_split a :=
  let H := fresh "Hd" in
  assert (H : a = 0 \/ a = 1 \/ a = 2 \/ a = 3 \/ a = 4 \/ a = 5 \/ a = 6
              \/ a = 7 \/ a = 8 \/ a = 9) by lia;
  repeat (destruct H as [H|H]); subst a.

Lemma dig_props a :
  0 <= a <= 9 -> is_digit (dig a) = true /\ digit (dig a) = a.
Proof. intros H. digit_split a; split; reflexivity. Qed.

Lemma re_Y_digits4 {A} y r (k : Z -> string -> option A) :
  0 <= y < 10000 -> re_Y (digits4 y ++ r) k = k y r.
Proof.
  intros H. unfold digits4, digits2, re_Y. cbn [append].
  destruct (dig_props (y / 1000)) as [-> ->];
    [Z.div_mod_to_equations; lia|].
  destruct (dig_props (y / 100 mod 10)) as [-> ->];
    [Z.div_mod_to_equations; lia|].
  destruct (dig_props (y mod 100 / 10)) as [-> ->];
    [Z.div_mod_to_equations; lia|].
  destruct (dig_props (y mod 100 mod 10)) as [-> ->];
    [Z.div_mod_to_equations; lia|].
  cbn [andb]. f_equal. Z.div_mod_to_equations. lia.
Qed.

Lemma match_Ymd_digits y m d :
  0 <= y < 10000 -> 1 <= m <= 12 -> 1 <= d <= 31 ->
  match_Ymd (digits4 y ++ "-" ++ digits2 m ++ "-" ++ digits2 d)
  = Some (y, m, d, "").
Proof.
  intros Hy Hm Hd. unfold match_Ymd. rewrite re_Y_digits4 by assumption.
  assert (D : exists t u, 0 <= t <= 3 /\ 0 <= u <= 9 /\ d = 10 * t + u).
  { exists (d / 10), (d mod 10). Z.div_mod_to_equations. lia. }
  destruct D as (t & u & Ht & Hu & ->).
  assert (Ht' : t = 0 \/ t = 1 \/ t = 2 \/ t = 3) by lia.
  month_split m; repeat (destruct Ht' as [Ht'|Ht']); subst t;
    digit_split u; try lia; vm_compute; reflexivity.
Qed.

Lemma strftime_parses dt :
  valid_datetime dt = true ->
  strptime_Ymd (strftime_Ymd dt)
  = Some (Datetime (year dt) (month dt) (day dt) 0 0 0 0).
Proof.
  intros V.
  assert (Vd : valid_date (year dt) (month dt) (day dt) = true).
  { unfold valid_datetime in V. rewrite !andb_true_iff in V. tauto. }
  pose proof (strftime_digits _ _ _ Vd) as E.
  change (strftime_Ymd (Datetime (year dt) (month dt) (day dt) 0 0 0 0))
    with (strftime_Ymd dt) in E.
  pose proof Vd as B. apply valid_date_bounds in B.
  destruct B as (Y & M & D).
  pose proof (days_in_month_le_31 (year dt) (month dt) M) as D31.
  unfold strptime_Ymd. rewrite E, match_Ymd_digits by lia. now rewrite Vd.
Qed.

Lemma strftime_canonical dt :
  valid_datetime dt = true -> canonical (strftime_Ymd dt) = true.
Proof.
  intros V. unfold canonical. rewrite (strftime_parses dt V).
  apply String.eqb_refl.
Qed.

(** The key [stop_timer] files a day under reads back, through
    [strptime], as the midnight of that day: what is logged under it is
    never skipped as a malformed key. *)
Theorem strptime_strftime (dt : datetime) :
  valid_datetime dt = true ->
  strptime_Ymd (strftime_Ymd dt)
  = Some (Datetime (year dt) (month dt) (day dt) 0 0 0 0)
  /\ canonical (strftime_Ymd dt) = true
  /\ day_number (strftime_Ymd dt) = toordinal dt.
Proof.
  intros V. split; [now apply strftime_parses|].
  split; [now apply strftime_canonical|].
  unfold day_number. now rewrite (strftime_parses dt V).
Qed.

Lemma strptime_strftime_witness :
  strptime_Ymd (strftime_Ymd (Datetime 2024 2 29 23 59 59 999999))
  = Some (Datetime 2024 2 29 0 0 0 0).
Proof.
  apply (strptime_strftime (Datetime 2024 2 29 23 59 59 999999)).
  reflexivity.
Defined.

(** ** The layout of the ledger *)

Lemma Forall_set {V} (P : string * V -> Prop) k v d :
  Forall P d -> P (k, v) -> Forall P (Dict.set k v d).
Proof.
  rewrite !Forall_forall. intros F Pk x I.
  apply DictFacts.In_set in I. destruct I as [->|I]; [exact Pk|now apply F].
Qed.

Lemma Forall_remove {V} (P : string * V -> Prop) k d :
  Forall P d -> Forall P (Dict.remove k d).
Proof.
  rewrite !Forall_forall. intros F x I. apply F.
  now apply DictFacts.In_remove with k.
Qed.

Lemma layout_set_active d c s :
  layout_ok d -> layout_ok (Dict.set "active" (Session c s) d).
Proof.
  intros [W F]. split; [now apply DictFacts.wf_set|].
  apply Forall_set; [exact F|reflexivity].
Qed.

Lemma canonical_set_active d v :
  canonical_db d -> canonical_db (Dict.set "active" v d).
Proof. intros F. apply Forall_set; [exact F|now left]. Qed.

(** the ledger of lines 47-55 has the layout of the one it comes from *)
Lemma stop_ledger_layout d category x day_log today :
  layout_ok d -> today <> "active" ->
  let d1 := Dict.remove "active" d in
  let d2 := if negb (Dict.mem today d1)
            then Dict.set today (Day []) d1 else d1 in
  Dict.get today d2 = Some (Day day_log) ->
  layout_ok (Dict.set today (Day (accumulate day_log category x)) d2).
Proof.
  intros [W F] NA d1 d2 G.
  assert (L2 : layout_ok d2).
  { unfold d2, d1. destruct (negb _).
    - split; [apply DictFacts.wf_set; now apply DictFacts.wf_remove|].
      apply Forall_set; [now apply Forall_remove|].
      unfold entry_ok. cbn. split; [exact NA|constructor].
    - split; [now apply DictFacts.wf_remove|now apply Forall_remove]. }
  destruct L2 as [W2 F2].
  split; [now apply DictFacts.wf_set|].
  apply Forall_set; [exact F2|].
  unfold entry_ok. cbn. split; [exact NA|].
  apply DictFacts.wf_set.
  apply DictFacts.get_In in G. rewrite Forall_forall in F2.
  specialize (F2 _ G). unfold entry_ok in F2. cbn in F2. tauto.
Qed.

Lemma stop_ledger_canonical d v today :
  canonical_db d -> canonical today = true ->
  let d1 := Dict.remove "active" d in
  let d2 := if negb (Dict.mem today d1)
            then Dict.set today (Day []) d1 else d1 in
  canonical_db (Dict.set today v d2).
Proof.
  intros F C d1 d2. apply Forall_set; [|now right].
  unfold d2, d1. destruct (negb _).
  - apply Forall_set; [now apply Forall_remove|now right].
  - now apply Forall_remove.
Qed.

Lemma ledger_of_eq w w' :
  files w' DB_PATH = files w DB_PATH -> ledger_of w' = ledger_of w.
Proof. unfold ledger_of. now intros ->. Qed.

(** one run of the program, on the ledger *)
Lemma main_ledger e c w d :
  ledger_of w = Some d ->
  exists d',
    ledger_of (snd (main e c w)) = Some d'
    /\ (layout_ok d -> layout_ok d')
    /\ (valid_datetime (datetime_now e) = true ->
        canonical_db d -> canonical_db d').
Proof.
  intros L. destruct c as [category| | |]; cbn [main].
  - unfold start_timer. rewrite snd_bind, load_db_same_world.
    rewrite (load_db_ledger _ _ L). cbn [fst].
    destruct (Dict.mem "active" d).
    + exists d. split; [exact L|tauto].
    + exists (Dict.set "active" (Session category (time_time e)) d).
      rewrite snd_bind, save_db_world. cbn [fst snd]. split; [reflexivity|].
      split; [apply layout_set_active|intros _; apply canonical_set_active].
  - destruct (stop_timer_file (git e) (time_time e) (datetime_now e)
                (report_time e) w)
      as [E|(d0 & category & s & day_log & L0 & A & G & E)].
    + exists d. now rewrite (ledger_of_eq _ _ E).
    + assert (d0 = d) by congruence. subst d0.
      eexists. split; [unfold ledger_of; rewrite E; reflexivity|]. split.
      * intros LO. apply stop_ledger_layout;
          [exact LO|apply strftime_not_active|exact G].
      * intros V C. apply stop_ledger_canonical;
          [exact C|now apply strftime_canonical].
  - exists d. split; [|tauto].
    rewrite <- L. apply ledger_of_eq.
    now apply generate_report_other_files.
  - exists d. split; [exact L|tauto].
Qed.

(** Every command keeps the layout of the ledger file: keys are unique, so
    there is at most one session in flight, a session sits under
    ["active"] only, and the categories of a day are unique. *)
Theorem main_keeps_layout (e : env) (c : command) (w : world) (d : db) :
  ledger_of w = Some d ->
  layout_ok d ->
  exists d',
    ledger_of (snd (main e c w)) = Some d'
    /\ layout_ok d'
    /\ (forall k cat s, In (k, Session cat s) d' ->
                        k = "active"
                        /\ Dict.get "active" d' = Some (Session cat s)).
Proof.
  intros L LO. destruct (main_ledger e c w d L) as (d' & L' & K & _).
  exists d'. split; [exact L'|]. specialize (K LO). split; [exact K|].
  intros k cat s I. destruct K as [W F].
  rewrite Forall_forall in F. pose proof (F _ I) as E.
  unfold entry_ok in E. cbn in E. subst k. split; [reflexivity|].
  now apply DictFacts.In_get.
Qed.

Lemma main_keeps_layout_witness :
  let now := Datetime 2024 1 8 12 0 0 0 in
  let e := Env 11800 now now (fun _ => None) in
  let d := [("2024-01-08", Day [("coding", 3600%Q)]);
            ("active", Session "coding" 10000%Q)] in
  let w := World (fs_write DB_PATH (Json d) (fun _ => None)) [] [] in
  exists d', ledger_of (snd (main e CmdStop w)) = Some d' /\ layout_ok d'.
Proof.
  intros now e d w.
  destruct (main_keeps_layout e CmdStop w d) as (d' & L & LO & _).
  - reflexivity.
  - split; repeat constructor; simpl; intuition discriminate.
  - exists d'. split; assumption.
Defined.

Lemma runs_sound l w :
  Forall (fun ec => valid_datetime (datetime_now (fst ec)) = true) l ->
  sound w -> sound (runs l w).
Proof.
  intros F. revert w. induction F as [|[e c] r V F IH]; intros w S;
    cbn [runs]; [exact S|].
  apply IH. destruct S as (d & L & LO & C).
  destruct (main_ledger e c w d L) as (d' & L' & K1 & K2).
  exists d'. cbn [fst] in V. auto.
Qed.

(** Started from nothing and run any number of times at clock readings
    that are dates, the program leaves a ledger file that loads, has the
    layout above, and whose date keys are all in the zero-padded form. *)
Theorem runs_keep_ledger_sound (l : list (env * command)) :
  Forall (fun ec => valid_datetime (datetime_now (fst ec)) = true) l ->
  exists d,
    ledger_of (runs l empty_world) = Some d
    /\ layout_ok d
    /\ forall k v, In (k, v) d -> k <> "active" -> canonical k = true.
Proof.
  intros F.
  destruct (runs_sound l empty_world F) as (d & L & LO & C).
  - exists []. repeat split; constructor.
  - exists d. repeat split; try assumption; try apply LO.
    intros k v I N. unfold canonical_db in C. rewrite Forall_forall in C.
    destruct (C _ I) as [E|E]; [contradiction|exact E].
Qed.

Lemma runs_keep_ledger_sound_witness :
  let now := Datetime 2024 1 8 12 0 0 0 in
  let e1 := Env 100 now now (fun _ => None) in
  let e2 := Env 3761 now now (fun _ => None) in
  exists d,
    ledger_of (runs [(e1, CmdStart "coding"); (e2, CmdStop)] empty_world)
    = Some d
    /\ layout_ok d.
Proof.
  intros now e1 e2.
  destruct (runs_keep_ledger_sound [(e1, CmdStart "coding"); (e2, CmdStop)])
    as (d & L & LO & _).
  - repeat constructor.
  - exists d. split; assumption.
Defined.

(** ** A session from start to stop *)

(** the seconds of the ledger of lines 47-55 *)
Lemma stop_ledger_seconds d category x today :
  layout_ok d -> today <> "active" ->
  let d1 := Dict.remove "active" d in
  let day_log := match Dict.get today d with
                 | Some (Day data) => data
                 | _ => []
                 end in
  let d2 := if Dict.mem today d1 then d1 else Dict.set today (Day []) d1 in
  let d' := Dict.set today (Day (accumulate day_log category x)) d2 in
  Dict.get "active" d' = None
  /\ seconds_at d' today category
     = Some (match seconds_at d today category with
             | Some old => old
             | None => 0
             end + x)%Q
  /\ (forall date_str cat,
        date_str <> today \/ cat <> category ->
        seconds_at d' date_str cat = seconds_at d date_str cat).
Proof.
  intros LO NA. cbn zeta.
  set (d1 := Dict.remove "active" d).
  set (d2 := if Dict.mem today d1 then d1 else Dict.set today (Day []) d1).
  assert (G2 : forall k, k <> today -> Dict.get k d2 = Dict.get k d1).
  { intros k N. unfold d2. destruct (Dict.mem today d1); [reflexivity|].
    now apply DictFacts.get_set_other. }
  split; [|split].
  - rewrite DictFacts.get_set_other by congruence.
    rewrite G2 by congruence.
    apply DictFacts.get_remove_same. apply LO.
  - unfold seconds_at, accumulate. rewrite !DictFacts.get_set_same.
    unfold Dict.get_default.
    now destruct (Dict.get today d) as [[c s|data]|].
  - intros date_str cat N.
    destruct (String.eqb_spec date_str today) as [->|ND].
    + destruct N as [N|N]; [contradiction|].
      unfold seconds_at, accumulate. rewrite DictFacts.get_set_same.
      rewrite DictFacts.get_set_other by assumption.
      now destruct (Dict.get today d) as [[c s|data]|].
    + unfold seconds_at. rewrite DictFacts.get_set_other by assumption.
      rewrite G2 by assumption. unfold d1.
      destruct (String.eqb_spec date_str "active") as [->|NAc].
      * rewrite DictFacts.get_remove_same by apply LO.
        pose proof (seconds_at_active d cat LO) as E.
        unfold seconds_at in E. now rewrite E.
      * now rewrite DictFacts.get_remove_other.
Qed.

(** A session started at clock reading [t0] on a ledger without one, and
    stopped at reading [t1], adds [t1 - t0] to the seconds of its category
    on the day of the stop, whatever the day of the start was; the session
    is gone and every other date and category reads as before the start. *)
Theorem start_then_stop (sh : shell) (t0 t1 : Q) (now report_now : datetime)
    (w : world) (d : db) (category : string) :
  ledger_of w = Some d ->
  layout_ok d ->
  Dict.mem "active" d = false ->
  let w1 := snd (start_timer t0 category w) in
  let w2 := snd (stop_timer sh t1 now report_now w1) in
  let today := strftime_Ymd now in
  exists d',
    ledger_of w2 = Some d'
    /\ Dict.get "active" d' = None
    /\ seconds_at d' today category
       = Some (match seconds_at d today category with
               | Some old => old
               | None => 0
               end + (t1 - t0))%Q
    /\ (forall date_str cat,
          date_str <> today \/ cat <> category ->
          seconds_at d' date_str cat = seconds_at d date_str cat).
Proof.
  intros L LO NA. cbn zeta.
  set (d1 := Dict.set "active" (Session category t0) d).
  assert (L1 : ledger_of (snd (start_timer t0 category w)) = Some d1).
  { unfold start_timer. rewrite snd_bind, load_db_same_world.
    rewrite (load_db_ledger _ _ L). cbn [fst]. rewrite NA.
    rewrite snd_bind, save_db_world. reflexivity. }
  assert (LO1 : layout_ok d1) by now apply layout_set_active.
  assert (A1 : Dict.get "active" d1 = Some (Session category t0))
    by apply DictFacts.get_set_same.
  pose proof (stop_timer_world sh t1 now report_now _ d1 category t0
                L1 LO1 A1) as W.
  cbn zeta in W. eexists. split; [exact W|].
  destruct (stop_ledger_seconds d1 category (t1 - t0)%Q (strftime_Ymd now)
              LO1 (strftime_not_active now)) as (G & S & Fr).
  assert (E : forall date_str cat,
             seconds_at d1 date_str cat = seconds_at d date_str cat).
  { intros date_str cat. unfold seconds_at, d1.
    destruct (String.eqb_spec date_str "active") as [->|N].
    - rewrite DictFacts.get_set_same.
      apply DictFacts.mem_false_get in NA. now rewrite NA.
    - now rewrite DictFacts.get_set_other. }
  split; [exact G|]. split.
  - rewrite S. now rewrite E.
  - intros date_str cat N. rewrite Fr by exact N. apply E.
Qed.

Lemma start_then_stop_witness :
  let now := Datetime 2024 1 8 0 30 0 0 in
  let d := [("2024-01-08", Day [("coding", 3600%Q)])] in
  let w := World (fs_write DB_PATH (Json d) (fun _ => None)) [] [] in
  let w2 := snd (stop_timer (fun _ => None) 5000%Q now now
                   (snd (start_timer 3200%Q "coding" w))) in
  exists d',
    ledger_of w2 = Some d'
    /\ seconds_at d' "2024-01-08" "coding" = Some (3600 + (5000 - 3200))%Q.
Proof.
  intros now d w w2.
  destruct (start_then_stop (fun _ => None) 3200%Q 5000%Q now now w d "coding")
    as (d' & L & _ & S & _).
  - reflexivity.
  - split; repeat constructor; simpl; intuition discriminate.
  - reflexivity.
  - exists d'. split; [exact L|exact S].
Defined.

(** ** What the totals are *)

Lemma get_default_accumulate d c x cat :
  Dict.get_default cat 0%Q (accumulate d c x)
  = if String.eqb c cat then (Dict.get_default c 0 d + x)%Q
    else Dict.get_default cat 0%Q d.
Proof.
  unfold accumulate, Dict.get_default at 1.
  destruct (String.eqb_spec c cat) as [->|N].
  - now rewrite DictFacts.get_set_same.
  - rewrite DictFacts.get_set_other by congruence. reflexivity.
Qed.

Lemma accumulate1_total l acc cat :
  (Dict.get_default cat 0 (fold_left accumulate1 l acc)
   == Dict.get_default cat 0 acc + total_of cat l)%Q.
Proof.
  revert acc. induction l as [|[c x] r IH]; intros acc; cbn [fold_left total_of].
  - ring.
  - rewrite IH. unfold accumulate1. cbn [fst snd].
    rewrite get_default_accumulate.
    destruct (String.eqb_spec c cat) as [->|N]; ring.
Qed.

Lemma flat_map_nonempty {A B} (l : list (A * list B)) :
  flat_map snd (filter (fun kd => nonempty (snd kd)) l) = flat_map snd l.
Proof.
  induction l as [|[k [|x r]] l IH]; cbn; [reflexivity|exact IH|].
  now rewrite IH.
Qed.

(** On a ledger of the persisted layout the total of a category is the sum
    of its seconds over the days inside the window, which is also the sum of
    what the daily logs show for it; a category that no such day has gets no
    total. *)
Theorem totals_are_sums (now start : datetime) (d : db) :
  layout_ok d ->
  exists totals daily_logs,
    aggregate start now (Dict.items d) ([], []) = Return (totals, daily_logs)
    /\ forall cat,
         (Dict.get_default cat 0 totals
          == total_of cat (window_entries start now d))%Q
         /\ (Dict.get_default cat 0 totals
             == total_of cat (flat_map snd daily_logs))%Q
         /\ (Dict.mem cat totals = true
             <-> In cat (map fst (window_entries start now d))).
Proof.
  intros LO. do 2 eexists. split; [now apply aggregate_layout|].
  intros cat. split; [|split].
  - rewrite accumulate1_total. cbn. ring.
  - rewrite flat_map_nonempty. fold (window_entries start now d).
    rewrite accumulate1_total. cbn. ring.
  - split.
    + intros Hm. apply DictFacts.mem_get in Hm. destruct Hm as [v G].
      apply DictFacts.get_In in G.
      assert (I : In cat (Dict.keys (fold_left accumulate1
                                       (window_entries start now d) []))).
      { unfold Dict.keys. apply in_map_iff. now exists (cat, v). }
      apply accumulate1_keys in I. destruct I as [[]|I]. exact I.
    + intros I.
      destruct (Dict.mem cat _) eqn:E; [reflexivity|exfalso].
      apply DictFacts.mem_false_get in E. apply DictFacts.get_None_keys in E.
      apply E. apply accumulate1_keys. now right.
Qed.

Lemma totals_are_sums_witness :
  let now := Datetime 2024 1 8 12 0 0 0 in
  let start := Datetime 2024 1 1 12 0 0 0 in
  let d := [("2024-01-05", Day [("coding", 3600%Q); ("reading", 7200%Q)]);
            ("2024-01-07", Day [("coding", 1800%Q)]);
            ("2023-12-01", Day [("coding", 999%Q)])] in
  exists totals daily_logs,
    aggregate start now (Dict.items d) ([], []) = Return (totals, daily_logs)
    /\ (Dict.get_default "coding" 0 totals == 5400)%Q.
Proof.
  intros now start d.
  destruct (totals_are_sums now start d) as (totals & dl & A & H).
  - split; repeat constructor; simpl; intuition discriminate.
  - exists totals, dl. split; [exact A|].
    destruct (H "coding") as (E & _). rewrite E. reflexivity.
Defined.

(** ** The session in flight and the report *)

Lemma aggregate_set_active start end_ v d acc :
  aggregate start end_ (Dict.set "active" v d) acc
  = aggregate start end_ d acc.
Proof.
  revert acc.
  induction d as [|[k v'] r IH]; intros acc; cbn [Dict.set aggregate];
    [reflexivity|].
  destruct (String.eqb_spec k "active") as [->|N]; cbn [aggregate].
  - reflexivity.
  - destruct (String.eqb_spec k "active") as [|_]; [contradiction|].
    destruct (strptime_Ymd k) as [o|]; [|apply IH].
    destruct (negb (in_window start o end_)); [apply IH|].
    destruct v'; [reflexivity|apply IH].
Qed.

(** the report depends on the ledger through the loop only *)
Lemma generate_report_same now w a dw da :
  ledger_of w = Some dw -> ledger_of a = Some da ->
  (forall start, aggregate start now (Dict.items da) ([], [])
                 = aggregate start now (Dict.items dw) ([], [])) ->
  (forall p, p <> DB_PATH -> files a p = files w p) ->
  fst (generate_report now a) = fst (generate_report now w)
  /\ forall p, p <> DB_PATH ->
               files (snd (generate_report now a)) p
               = files (snd (generate_report now w)) p.
Proof.
  intros Lw La A F. unfold generate_report, bind.
  rewrite (load_db_ledger _ _ Lw), (load_db_ledger _ _ La).
  destruct (sub_days now 7) as [start|]; [|split; [reflexivity|exact F]].
  rewrite A.
  destruct (aggregate start now (Dict.items dw) ([], [])) as [[totals dl]|e];
    [|split; [reflexivity|exact F]].
  destruct totals as [|t totals]; [split; [reflexivity|exact F]|].
  cbn. split; [reflexivity|].
  intros p N. unfold fs_write.
  destruct (String.eqb p README_PATH); [reflexivity|].
  destruct (String.eqb p SUMMARY_PATH); [reflexivity|].
  destruct (String.eqb p REPORT_PATH); [reflexivity|now apply F].
Qed.

(** The session in flight is no part of the report: the loop computes the
    same from a ledger whatever is stored under ["active"], and a report
    generated after [start_timer] ends as, and writes what, a report
    generated before it would have. *)
Theorem start_keeps_report (t : Q) (category : string) (now : datetime)
    (w : world) :
  (forall start v d acc,
      aggregate start now (Dict.items (Dict.set "active" v d)) acc
      = aggregate start now (Dict.items d) acc)
  /\ let w1 := snd (start_timer t category w) in
     fst (generate_report now w1) = fst (generate_report now w)
     /\ forall p, p <> DB_PATH ->
                  files (snd (generate_report now w1)) p
                  = files (snd (generate_report now w)) p.
Proof.
  split; [intros; apply aggregate_set_active|]. cbn zeta.
  unfold start_timer. rewrite snd_bind, load_db_same_world.
  destruct (ledger_of w) as [d|] eqn:L.
  - rewrite (load_db_ledger _ _ L). cbn [fst].
    destruct (Dict.mem "active" d).
    + apply generate_report_same with d d; auto.
    + rewrite snd_bind, save_db_world. cbn [fst snd].
      apply generate_report_same
        with d (Dict.set "active" (Session category t) d).
      * exact L.
      * reflexivity.
      * intros start. apply aggregate_set_active.
      * intros p N. unfold print. cbn [snd files].
        now rewrite !fs_write_other.
  - rewrite (load_db_corrupt _ L). cbn [fst]. split; reflexivity.
Qed.

(** ** The report after a stop *)

Lemma toordinal_max dt :
  valid_datetime dt = true -> 1 <= toordinal dt <= MAXORDINAL.
Proof.
  intros V.
  assert (Vd : valid_date (year dt) (month dt) (day dt) = true).
  { unfold valid_datetime in V. rewrite !andb_true_iff in V. tauto. }
  apply valid_date_bounds in Vd. destruct Vd as (Y & M & D).
  pose proof (day_of_year_bounds _ _ _ M D) as B.
  pose proof (days_before_year_succ (year dt)) as S.
  pose proof (days_before_year_mono (year dt + 1) 10000) as Mo.
  pose proof (days_before_year_mono 1 (year dt)) as Mo1.
  change (days_before_year 10000) with 3652059 in Mo.
  change (days_before_year 1) with 0 in Mo1.
  unfold toordinal, ymd2ord, MAXORDINAL. lia.
Qed.

Lemma sub_days_some dt n :
  valid_datetime dt = true -> 0 <= n < toordinal dt ->
  exists start, sub_days dt n = Some start.
Proof.
  intros V H. pose proof (toordinal_max dt V) as B.
  unfold sub_days.
  assert (R : (0 <? toordinal dt - n) && (toordinal dt - n <=? MAXORDINAL)
              = true).
  { apply andb_true_iff. rewrite Z.ltb_lt, Z.leb_le. lia. }
  rewrite R. destruct (ord2ymd (toordinal dt - n)) as [[y m] d].
  eexists. reflexivity.
Qed.

(** [stop_timer] with a session in flight: the ledger it saves, and the
    report it then generates on the world where that ledger is saved *)
Lemma stop_timer_run sh end_time now report_now w d category s :
  ledger_of w = Some d ->
  layout_ok d ->
  Dict.get "active" d = Some (Session category s) ->
  let today := strftime_Ymd now in
  let d1 := Dict.remove "active" d in
  let d2 := if negb (Dict.mem today d1)
            then Dict.set today (Day []) d1 else d1 in
  exists day_log w0,
    Dict.get today d2 = Some (Day day_log)
    /\ ledger_of w0
       = Some (Dict.set today
                 (Day (accumulate day_log category (end_time - s))) d2)
    /\ (forall p, p <> DB_PATH -> files w0 p = files w p)
    /\ files (snd (stop_timer sh end_time now report_now w))
       = files (snd (generate_report report_now w0)).
Proof.
  intros L LO A. cbn zeta.
  pose proof (strftime_not_active now) as NA.
  set (today := strftime_Ymd now) in *.
  set (d1 := Dict.remove "active" d).
  set (d2 := if negb (Dict.mem today d1) then Dict.set today (Day []) d1 else d1).
  assert (G : exists day_log, Dict.get today d2 = Some (Day day_log)).
  { unfold d2, Dict.mem.
    destruct (Dict.get today d1) as [v|] eqn:G1; cbn [negb].
    - rewrite G1. unfold d1 in G1.
      rewrite DictFacts.get_remove_other in G1 by assumption.
      destruct (layout_get_day _ _ _ LO NA G1) as [data [-> _]].
      now exists data.
    - exists []. apply DictFacts.get_set_same. }
  destruct G as [day_log G]. exists day_log.
  unfold stop_timer. unfold bind at 1. rewrite (load_db_ledger _ _ L).
  assert (MA : Dict.mem "active" d = true)
    by (apply DictFacts.mem_get; eauto).
  rewrite MA, A. cbn [negb]. fold today d1 d2. rewrite G.
  rewrite !snd_bind. rewrite save_db_world. cbn [fst snd].
  unfold print at 1. cbn [fst snd].
  match goal with
  | |- context [generate_report report_now ?w1] => exists w1
  end.
  split; [reflexivity|]. split; [reflexivity|]. split.
  - intros p N. unfold print. cbn [snd files].
    now rewrite !fs_write_other.
  - match goal with
    | |- context [generate_report report_now ?w1] =>
        destruct (generate_report report_now w1) as [[[]|e] w2]
    end; cbn [fst snd]; [apply git_commit_push_files|reflexivity].
Qed.



(** ** The order of the days in a ledger the program wrote *)

Lemma filter_all {A} (f : A -> bool) l :
  (forall x, In x l -> f x = true) -> filter f l = l.
Proof.
  induction l as [|x r IH]; intros H; cbn; [reflexivity|].
  rewrite (H x) by now left. rewrite IH; [reflexivity|].
  intros y I. apply H. now right.
Qed.



(** ** Entries only grow *)

(** No command removes or lowers an entry: on a ledger of the persisted
    layout, run at a clock reading not earlier than the start of the session
    in flight, every date and category that had seconds still has them
    afterwards, and at least as many. *)
Theorem entries_only_grow (e : env) (c : command) (w : world) (d : db) :
  ledger_of w = Some d ->
  layout_ok d ->
  clock_after_start (time_time e) w ->
  exists d',
    ledger_of (snd (main e c w)) = Some d'
    /\ forall date_str cat x,
         seconds_at d date_str cat = Some x ->
         exists y, seconds_at d' date_str cat = Some y /\ (x <= y)%Q.
Proof.
  intros L LO C.
  assert (Same : forall w', ledger_of w' = Some d ->
            exists d', ledger_of w' = Some d'
              /\ forall date_str cat x,
                   seconds_at d date_str cat = Some x ->
                   exists y, seconds_at d' date_str cat = Some y /\ (x <= y)%Q).
  { intros w' L'. exists d. split; [exact L'|].
    intros date_str cat x S. exists x. split; [exact S|lra]. }
  destruct c as [category| | |]; cbn [main].
  - unfold start_timer. rewrite snd_bind, load_db_same_world.
    rewrite (load_db_ledger _ _ L). cbn [fst].
    destruct (Dict.mem "active" d); [now apply Same|].
    rewrite snd_bind, save_db_world. cbn [fst snd].
    eexists. split; [reflexivity|].
    intros date_str cat x S. exists x. split; [|lra].
    rewrite <- S. unfold seconds_at.
    destruct (String.eqb_spec date_str "active") as [->|N].
    + rewrite (seconds_at_active d cat LO) in S. discriminate S.
    + now rewrite DictFacts.get_set_other.
  - destruct (Dict.get "active" d) as [[category s|data]|] eqn:A.
    + pose proof (stop_timer_world (git e) (time_time e) (datetime_now e)
                    (report_time e) w d category s L LO A) as W.
      cbn zeta in W. eexists. split; [exact W|].
      destruct (stop_ledger_seconds d category (time_time e - s)%Q
                  (strftime_Ymd (datetime_now e)) LO (strftime_not_active _))
        as (_ & S1 & S2).
      assert (Le : (s <= time_time e)%Q).
      { unfold clock_after_start in C. unfold ledger_of in L.
        destruct (files w DB_PATH) as [[]|]; try discriminate.
        - injection L as ->. unfold active_start in C. now rewrite A in C.
        - injection L as <-. discriminate A. }
      intros date_str cat x S.
      destruct (String.eqb_spec date_str (strftime_Ymd (datetime_now e)))
        as [->|Nd];
        [destruct (String.eqb_spec cat category) as [->|Nc]|].
      * rewrite S1, S. eexists. split; [reflexivity|lra].
      * rewrite S2 by now right. exists x. split; [exact S|lra].
      * rewrite S2 by now left. exists x. split; [exact S|lra].
    + destruct LO as [_ F]. apply DictFacts.get_In in A.
      rewrite Forall_forall in F. specialize (F _ A).
      unfold entry_ok in F. cbn in F. now destruct F.
    + apply Same.
      destruct (stop_timer_file (git e) (time_time e) (datetime_now e)
                  (report_time e) w)
        as [E|(d0 & category & s & day_log & L0 & A0 & _)].
      * now rewrite (ledger_of_eq _ _ E).
      * assert (d0 = d) by congruence. subst d0. congruence.
  - apply Same. rewrite <- L. apply ledger_of_eq.
    now apply generate_report_other_files.
  - now apply Same.
Qed.

Lemma entries_only_grow_witness :
  let now := Datetime 2024 1 8 12 0 0 0 in
  let e := Env 11800 now now (fun _ => None) in
  let d := [("2024-01-08", Day [("coding", 3600%Q)]);
            ("active", Session "coding" 10000%Q)] in
  let w := World (fs_write DB_PATH (Json d) (fun _ => None)) [] [] in
  exists d' y,
    ledger_of (snd (main e CmdStop w)) = Some d'
    /\ seconds_at d' "2024-01-08" "coding" = Some y /\ (3600 <= y)%Q.
Proof.
  intros now e d w.
  destruct (entries_only_grow e CmdStop w d) as (d' & L & G).
  - reflexivity.
  - split; repeat constructor; simpl; intuition discriminate.
  - cbn. discriminate.
  - destruct (G "2024-01-08" "coding" 3600%Q eq_refl) as (y & S & Le).
    exists d', y. repeat split; assumption.
Defined.

(** ** A session where a day should be *)

Lemma aggregate_session start end_ its acc k c s :
  In (k, Session c s) its ->
  passes start end_ (k, Session c s) = true ->
  aggregate start end_ its acc = Raise TypeError.
Proof.
  revert acc. induction its as [|[k0 v0] r IH]; intros acc I P; [destruct I|].
  cbn [aggregate].
  destruct I as [E|I].
  - injection E as -> ->. unfold passes in P. cbn [fst] in P.
    destruct (String.eqb k "active"); [discriminate P|].
    destruct (strptime_Ymd k) as [o|]; [|discriminate P].
    cbn [negb andb] in P. now rewrite P.
  - destruct (String.eqb k0 "active"); [now apply IH|].
    destruct (strptime_Ymd k0) as [o|]; [|now apply IH].
    destruct (negb (in_window start o end_)); [now apply IH|].
    destruct v0; [reflexivity|now apply IH].
Qed.

(** A ledger that holds a session record under a date inside the window
    makes [generate_report] raise [TypeError] before anything is written or
    printed: the malformed entry is not skipped. *)
Theorem generate_report_session_under_date (now start : datetime) (w : world)
    (d : db) (k c : string) (s : Q) :
  ledger_of w = Some d ->
  sub_days now 7 = Some start ->
  In (k, Session c s) d ->
  passes start now (k, Session c s) = true ->
  generate_report now w = (Raise TypeError, w).
Proof.
  intros L S I P. unfold generate_report, bind.
  rewrite (load_db_ledger _ _ L), S. unfold Dict.items.
  now rewrite (aggregate_session start now d ([], []) k c s I P).
Qed.

Lemma generate_report_session_under_date_witness :
  let now := Datetime 2024 1 8 12 0 0 0 in
  let d := [("2024-01-07", Day [("coding", 3600%Q)]);
            ("2024-01-08", Session "coding" 10000%Q)] in
  let w := World (fs_write DB_PATH (Json d) (fun _ => None)) [] [] in
  generate_report now w = (Raise TypeError, w).
Proof.
  intros now d w.
  apply (generate_report_session_under_date now (Datetime 2024 1 1 12 0 0 0)
           w d "2024-01-08" "coding" 10000%Q).
  - reflexivity.
  - reflexivity.
  - right. now left.
  - reflexivity.
Defined.
